(** * Arbitrage profit tracker (arb_tracker.py)

    A shallow embedding of the rate fetchers, the profit calculator, the
    in-memory profit history and the settings update of [arb_tracker.py],
    and the properties its specification states about them.

    Numbers are IEEE-754 binary64 values, as Python's [float] is: they are
    Rocq's primitive floats, whose operations round to nearest-even exactly
    as CPython's do.  Python objects decoded from JSON are values of
    [pyobj].  The list [profit_history] holds references to dictionaries,
    so the state carries a store of dictionaries and the list holds
    addresses into it. *)

From Stdlib Require Import ZArith Ascii String List Floats Lia Permutation Sorted.
From stdpp Require Import base option list.
Import ListNotations.

Set Warnings "-inexact-float,-register-all".
Set Default Proof Using "Type".

(* ================================================================== *)
(** * Python values and the built-ins the program calls *)
(* ================================================================== *)

Module Py.

(** What [response.json()] and [request.json] return. *)
Inductive pyobj : Type :=
| PyNone
| PyBool (b : bool)
| PyInt (n : Z)
| PyFloat (x : float)
| PyStr (s : string)
| PyList (l : list pyobj)
| PyDict (d : list (string * pyobj)).

(** A dictionary as the list of its items; a key occurs once, and
    [dict_get] reads the first (only) item with that key. *)
Fixpoint dict_get (d : list (string * pyobj)) (k : string) : option pyobj :=
  match d with
  | [] => None
  | (k', v) :: d' => if String.eqb k' k then Some v else dict_get d' k
  end.

(** [k in d]. *)
Definition dict_mem (d : list (string * pyobj)) (k : string) : bool :=
  match dict_get d k with Some _ => true | None => false end.

(** Truth value of a float: every float but [0.0] and [-0.0] is true
    (a NaN is true). *)
Definition float_truthy (x : float) : bool := negb (PrimFloat.eqb x 0).

(** [bool(o)]. *)
Definition truthy (o : pyobj) : bool :=
  match o with
  | PyNone => false
  | PyBool b => b
  | PyInt n => negb (n =? 0)%Z
  | PyFloat x => float_truthy x
  | PyStr s => negb (String.eqb s "")
  | PyList l => match l with [] => false | _ :: _ => true end
  | PyDict d => match d with [] => false | _ :: _ => true end
  end.

(** [max(a, b)] on two arguments: CPython keeps [a] unless [b > a]. *)
Definition py_max (a b : float) : float :=
  if PrimFloat.ltb a b then b else a.

(** [a / b] on floats; [None] is [ZeroDivisionError]. *)
Definition float_truediv (a b : float) : option float :=
  if PrimFloat.eqb b 0 then None else Some (PrimFloat.div a b).

(** The conversions between numbers and text, and the arithmetic on
    unbounded integers, are CPython's and not the program's: they are
    taken as given.  [None] stands for the exception the built-in
    raises ([ValueError], [OverflowError]). *)
Class Builtins : Type := {
  float_of_str : string -> option float;   (* float("18.5") *)
  float_of_int : Z -> option float;        (* float(20000) *)
  int_truediv : Z -> Z -> option float;    (* a / b on ints, b <> 0 *)
  float_repr : float -> string             (* the text an f-string gives *)
}.

Section WithBuiltins.
Context `{Builtins}.

(** [float(o)]; [None] is [TypeError], [ValueError] or
    [OverflowError].  [bool] is a subclass of [int]. *)
Definition py_float (o : pyobj) : option float :=
  match o with
  | PyFloat x => Some x
  | PyInt n => float_of_int n
  | PyBool b => float_of_int (if b then 1 else 0)%Z
  | PyStr s => float_of_str s
  | PyNone | PyList _ | PyDict _ => None
  end.

(** [1 / o]; [None] is [ZeroDivisionError] or [TypeError]. *)
Definition one_over (o : pyobj) : option float :=
  match o with
  | PyFloat x => float_truediv 1 x
  | PyInt n => if (n =? 0)%Z then None else int_truediv 1 n
  | PyBool b => if b then int_truediv 1 1 else None
  | PyNone | PyStr _ | PyList _ | PyDict _ => None
  end.
End WithBuiltins.

(** [o.get(k)]: only a dictionary has the method ([None] is
    [AttributeError]); a missing key reads as Python's [None]. *)
Definition method_get (o : pyobj) (k : string) : option pyobj :=
  match o with
  | PyDict d => Some (default PyNone (dict_get d k))
  | _ => None
  end.

(** [o[k]] with a string key; [None] is [KeyError] or [TypeError]. *)
Definition subscript (o : pyobj) (k : string) : option pyobj :=
  match o with
  | PyDict d => dict_get d k
  | _ => None
  end.

(** [o == s] for a string literal [s]. *)
Definition eq_str (o : pyobj) (s : string) : bool :=
  match o with
  | PyStr t => String.eqb t s
  | _ => false
  end.

End Py.
Import Py.

(* ================================================================== *)
(** * Rate fetchers *)
(* ================================================================== *)

(** The outcome of [requests.get(...)] followed by [response.json()]:
    the decoded body, or [None] when either call raised. *)
Definition http_outcome : Type := option pyobj.

Section Fetchers.
Context `{Builtins}.

(** Lines 21-36.  Every exception inside the [try] is turned into the
    return value [None]. *)
Definition get_valr_usdc_zar_rate (response : http_outcome) : option float :=
  data ← response;
  bid_price ← method_get data "bidPrice";
  if truthy bid_price then py_float bid_price else None.

(** Lines 38-52. *)
Definition get_exchange_rate (response : http_outcome) : option float :=
  data ← response;
  result ← subscript data "result";
  if eq_str result "success" then
    rates ← subscript data "conversion_rates";
    usd ← subscript rates "USD";
    one_over usd
  else None.
End Fetchers.

(* ================================================================== *)
(** * Profit calculator *)
(* ================================================================== *)

(** Wall-clock readings are microseconds since the start of the
    calendar, as a [datetime] counts them. *)
Definition datetime : Type := Z.

(** The text [strftime('%Y-%m-%d %H:%M:%S')] prints names one whole
    second and is different for different seconds, so a timestamp is
    kept as that second. *)
Definition timestamp : Type := Z.

Definition strftime (now : datetime) : timestamp := (now / 1000000)%Z.

(** [datetime.strptime(ts, '%Y-%m-%d %H:%M:%S')]: the start of the second. *)
Definition strptime (ts : timestamp) : datetime := (ts * 1000000)%Z.

(** The dictionary [calculate_arb_profit] returns (lines 84-95). *)
Module Report.
Record t : Type := mk {
  timestamp : timestamp;
  valr_rate : float;
  market_rate : float;
  spread : float;
  initial_zar : float;
  usd_purchased : float;
  wire_fee : float;
  final_zar : float;
  profit_zar : float;
  profit_percent : float
}.
End Report.

(** A function either raises or returns. *)
Inductive result (A : Type) : Type :=
| Raised
| Returned (a : A).
Arguments Raised {A}.
Arguments Returned {A} a.

Definition result_bind {A B} (m : result A) (k : A -> result B) : result B :=
  match m with
  | Raised => Raised
  | Returned a => k a
  end.

(** A division that raises [ZeroDivisionError] aborts the caller. *)
Definition divide (a b : float) : result float :=
  match float_truediv a b with
  | Some q => Returned q
  | None => Raised
  end.

Notation "'let!' x ':=' m 'in' k" := (result_bind m (fun x => k))
  (at level 10, x name, m at level 100, k at level 200, only parsing).

(** [not rate] is false exactly for a rate that is a float other than
    zero; [usable] keeps those. *)
Definition usable (rate : option float) : option float :=
  match rate with
  | Some x => if float_truthy x then Some x else None
  | None => None
  end.

Section Calculator.
Context `{Builtins}.
Open Scope float_scope.

(** Line 67.  The literal [10] is an [int]; where it is the maximum it
    enters the later float arithmetic as [10.0]. *)
Definition wire_transfer_fee (usd_purchased : float) : float :=
  py_max (0.0013 * usd_purchased) 10.

Definition usd_after_wire (usd_purchased : float) : float :=
  usd_purchased - wire_transfer_fee usd_purchased.

Definition tick_size : float := 0.001.
Definition withdrawal_fee : float := 30.

Definition sell_rate (highest_bid_rate : float) : float :=
  highest_bid_rate + tick_size.

Definition final_zar (usd_purchased highest_bid_rate : float) : float :=
  usd_after_wire usd_purchased * sell_rate highest_bid_rate - withdrawal_fee.

(** Lines 54-95.  [initial_investment] is the module's global,
    [env_usd] is [float(os.getenv('USD_PURCHASED', 0))], [valr] and
    [exch] are what the two HTTP calls yield and [now] is the clock
    reading of line 85. *)
Definition calculate_arb_profit
    (initial_investment env_usd : float) (usd_purchased : option float)
    (valr exch : http_outcome) (now : datetime) : result (option Report.t) :=
  let usd_purchased := default env_usd usd_purchased in
  let highest_bid_rate := get_valr_usdc_zar_rate valr in
  let market_rate := get_exchange_rate exch in
  match usable highest_bid_rate, usable market_rate with
  | Some highest_bid_rate, Some market_rate =>
      let wire_transfer_fee := wire_transfer_fee usd_purchased in
      let final_zar := final_zar usd_purchased highest_bid_rate in
      let profit := final_zar - initial_investment in
      let! profit_percent :=
        if 0 <? initial_investment
        then let! q := divide profit initial_investment in Returned (q * 100)
        else Returned 0 in
      let! ratio := divide highest_bid_rate market_rate in
      let spread := (ratio - 1) * 100 in
      Returned (Some {|
        Report.timestamp := strftime now;
        Report.valr_rate := highest_bid_rate;
        Report.market_rate := market_rate;
        Report.spread := spread;
        Report.initial_zar := initial_investment;
        Report.usd_purchased := usd_purchased;
        Report.wire_fee := wire_transfer_fee;
        Report.final_zar := final_zar;
        Report.profit_zar := profit;
        Report.profit_percent := profit_percent |})
  | _, _ => Returned None
  end.
End Calculator.

(* ================================================================== *)
(** * The process state *)
(* ================================================================== *)

(** A dictionary that sits in [profit_history]: the report's ten keys,
    and the key ['datetime'] while it is present. *)
Record entry : Type := mk_entry {
  e_report : Report.t;
  e_datetime : option datetime
}.

(** [del item['datetime']] under [if 'datetime' in item]. *)
Definition del_datetime (e : entry) : entry :=
  {| e_report := e_report e; e_datetime := None |}.

(** The sort key of lines 711-713 and 726-728: the ['datetime'] value
    when the key holds one, the parsed ['timestamp'] otherwise. *)
Definition capture_time (e : entry) : datetime :=
  match e_datetime e with
  | Some d => d
  | None => strptime (Report.timestamp (e_report e))
  end.

(** The module's globals, the dictionaries they refer to, the process
    environment and the [.env] file.  A dictionary is named by its
    position in [heap]; [profit_history] is a list of such names.
    [dotenv] is what [readlines()] gives, or [None] when there is no
    file.  These are the lines as text; how they relate to the
    characters of the file is written out with [readlines] and
    [write_lines] further down. *)
Record state : Type := mk_state {
  heap : list entry;
  profit_history : list nat;
  last_refresh_time : option timestamp;
  initial_investment : float;
  usd_purchased : float;
  environ_usd_purchased : float;
  dotenv : option (list string)
}.

Definition set_history (st : state) (h : list entry) (ph : list nat) : state :=
  {| heap := h; profit_history := ph;
     last_refresh_time := last_refresh_time st;
     initial_investment := initial_investment st;
     usd_purchased := usd_purchased st;
     environ_usd_purchased := environ_usd_purchased st;
     dotenv := dotenv st |}.

Definition set_last_refresh_time (st : state) (ts : timestamp) : state :=
  {| heap := heap st; profit_history := profit_history st;
     last_refresh_time := Some ts;
     initial_investment := initial_investment st;
     usd_purchased := usd_purchased st;
     environ_usd_purchased := environ_usd_purchased st;
     dotenv := dotenv st |}.

Definition set_initial_investment (st : state) (x : float) : state :=
  {| heap := heap st; profit_history := profit_history st;
     last_refresh_time := last_refresh_time st;
     initial_investment := x;
     usd_purchased := usd_purchased st;
     environ_usd_purchased := environ_usd_purchased st;
     dotenv := dotenv st |}.

Definition set_usd_purchased (st : state) (x : float) : state :=
  {| heap := heap st; profit_history := profit_history st;
     last_refresh_time := last_refresh_time st;
     initial_investment := initial_investment st;
     usd_purchased := x;
     environ_usd_purchased := environ_usd_purchased st;
     dotenv := dotenv st |}.

Definition set_dotenv (st : state) (lines : list string) : state :=
  {| heap := heap st; profit_history := profit_history st;
     last_refresh_time := last_refresh_time st;
     initial_investment := initial_investment st;
     usd_purchased := usd_purchased st;
     environ_usd_purchased := environ_usd_purchased st;
     dotenv := Some lines |}.

(** Lines 16-19, with the environment read at start-up. *)
Definition initial_state (rands usd : float) (file : option (list string)) : state :=
  {| heap := []; profit_history := [];
     last_refresh_time := None;
     initial_investment := rands;
     usd_purchased := usd;
     environ_usd_purchased := usd;
     dotenv := file |}.

(** The dictionaries of the history, in list order. *)
Definition entries (st : state) : list entry :=
  omap (fun a => heap st !! a) (profit_history st).

(** The sort key of the dictionary at an address. *)
Definition key_at (h : list entry) (a : nat) : datetime :=
  from_option capture_time 0%Z (h !! a).

(** [list.sort(key=...)] is stable, so its result is the one stable
    arrangement by key; insertion computes it. *)
Section Sort.
Context {A : Type} (key : A -> Z).

Fixpoint insert_by (a : A) (l : list A) : list A :=
  match l with
  | [] => [a]
  | b :: l' => if (key a <=? key b)%Z then a :: b :: l' else b :: insert_by a l'
  end.

Fixpoint sort_by (l : list A) : list A :=
  match l with
  | [] => []
  | a :: l' => insert_by a (sort_by l')
  end.
End Sort.

(** Lines 731-733: the loop over the dictionaries named by [ids]. *)
Definition del_all (h : list entry) (ids : list nat) : list entry :=
  foldl (fun h a => alter del_datetime a h) h ids.

(** What a request handler sends back. *)
Inductive body : Type :=
| JsonReport (r : Report.t)
| JsonError (msg : string)
| JsonHistory (l : list Report.t)
| JsonSuccess
| Unhandled.   (* the server's page for an exception no handler caught *)

Record response : Type := mk_response {
  resp_body : body;
  resp_status : Z
}.

Definition internal_server_error : response :=
  {| resp_body := Unhandled; resp_status := 500 |}.

(** Storing a fresh dictionary and appending its address to the list. *)
Definition append_entry (st : state) (e : entry) : state :=
  set_history st (heap st ++ [e]) (profit_history st ++ [length (heap st)]).

Section History.
Context `{Builtins}.

(** One turn of the loop of lines 101-111, up to the [sleep].  [now1]
    is the clock reading inside the calculator, [now2] the one of
    line 105.  The dictionary the calculator returned is itself
    appended. *)
Definition update_profit_history
    (valr exch : http_outcome) (now1 now2 : datetime) (st : state) : state :=
  match calculate_arb_profit (initial_investment st) (environ_usd_purchased st)
          None valr exch now1 with
  | Returned (Some result) =>
      let st := append_entry st {| e_report := result; e_datetime := Some now2 |} in
      let st :=
        if 1000 <? length (profit_history st)
        then set_history st (heap st)
               (drop (length (profit_history st) - 1000) (profit_history st))
        else st in
      set_last_refresh_time st (Report.timestamp result)
  | Returned None => st
  | Raised => st
  end.

(** [any(item.get('timestamp') == result.get('timestamp') for item in
    profit_history)], line 704. *)
Definition timestamp_present (st : state) (ts : timestamp) : bool :=
  existsb
    (fun a => match heap st !! a with
              | Some e => (Report.timestamp (e_report e) =? ts)%Z
              | None => false
              end)
    (profit_history st).

(** Lines 695-699: an absent or empty parameter gives the global. *)
Definition usd_purchased_value (param : option string) (st : state) : option float :=
  match param with
  | Some s => if String.eqb s "" then Some (usd_purchased st) else float_of_str s
  | None => Some (usd_purchased st)
  end.

(** Lines 693-718. *)
Definition get_profit_data
    (param : option string) (valr exch : http_outcome) (now1 now2 : datetime)
    (st : state) : state * response :=
  match usd_purchased_value param st with
  | None => (st, internal_server_error)
  | Some usd_purchased_value =>
      match calculate_arb_profit (initial_investment st) (environ_usd_purchased st)
              (Some usd_purchased_value) valr exch now1 with
      | Raised => (st, internal_server_error)
      | Returned None =>
          (st, {| resp_body := JsonError "Failed to calculate profit";
                  resp_status := 500 |})
      | Returned (Some result) =>
          let st :=
            if timestamp_present st (Report.timestamp result) then st
            else
              let st := append_entry st
                          {| e_report := result; e_datetime := Some now2 |} in
              if 1000 <? length (profit_history st)
              then set_history st (heap st)
                     (tail (sort_by (key_at (heap st)) (profit_history st)))
              else st in
          (st, {| resp_body := JsonReport result; resp_status := 200 |})
      end
  end.

(** Lines 720-735.  [history_copy] is a new list of the same
    dictionaries, so the deletions of lines 731-733 act on the
    dictionaries of [profit_history]. *)
Definition get_profit_history (st : state) : state * response :=
  let history_copy := profit_history st in
  let history_copy := sort_by (key_at (heap st)) history_copy in
  let heap' := del_all (heap st) history_copy in
  (set_history st heap' (profit_history st),
   {| resp_body := JsonHistory (omap (fun a => e_report <$> heap' !! a) history_copy);
      resp_status := 200 |}).
End History.

(* ================================================================== *)
(** * Settings update *)
(* ================================================================== *)

Definition newline : string := String (Ascii.ascii_of_nat 10) EmptyString.

Section Settings.
Context `{Builtins}.

(** Lines 753-759: what is written for one line that was read. *)
Definition rewrite_line (initial_investment usd_purchased : float)
    (line : string) : string :=
  if String.prefix "RANDS=" line
  then String.append "RANDS=" (String.append (float_repr initial_investment) newline)
  else if String.prefix "USD_PURCHASED=" line
  then String.append "USD_PURCHASED="
         (String.append (float_repr usd_purchased) newline)
  else line.

(** [if key in data: target = float(data[key])]; [None] when the
    conversion raises. *)
Definition read_setting (data : list (string * pyobj)) (key : string)
    (current : float) : option float :=
  if dict_mem data key then dict_get data key ≫= py_float else Some current.

(** Lines 737-761, for a request whose JSON body is the object [data].
    An exception leaves the assignments made before it in place. *)
Definition update_settings (data : list (string * pyobj)) (st : state)
    : state * response :=
  match read_setting data "initial_investment" (initial_investment st) with
  | None => (st, internal_server_error)
  | Some x =>
      let st := set_initial_investment st x in
      match read_setting data "usd_purchased" (usd_purchased st) with
      | None => (st, internal_server_error)
      | Some y =>
          let st := set_usd_purchased st y in
          match dotenv st with
          | None => (st, internal_server_error)
          | Some lines =>
              (set_dotenv st
                 (map (rewrite_line (initial_investment st) (usd_purchased st)) lines),
               {| resp_body := JsonSuccess; resp_status := 200 |})
          end
      end
  end.
End Settings.


(* ================================================================== *)
(** * The [.env] file as characters *)
(* ================================================================== *)










Section SettingsOnDisk.
Context `{Builtins}.

End SettingsOnDisk.

(* ================================================================== *)
(** * Runs of the process *)
(* ================================================================== *)

(** What can happen to the state: a turn of the polling loop, or one of
    the three requests.  Each carries what the outside world supplies. *)
Inductive event : Type :=
| Poll (valr exch : http_outcome) (now1 now2 : datetime)
| ProfitDataRequest (param : option string) (valr exch : http_outcome)
    (now1 now2 : datetime)
| ProfitHistoryRequest
| SettingsRequest (data : list (string * pyobj)).

Section Runs.
Context `{Builtins}.

Definition step (st : state) (ev : event) : state :=
  match ev with
  | Poll valr exch now1 now2 => update_profit_history valr exch now1 now2 st
  | ProfitDataRequest param valr exch now1 now2 =>
      fst (get_profit_data param valr exch now1 now2 st)
  | ProfitHistoryRequest => fst (get_profit_history st)
  | SettingsRequest data => fst (update_settings data st)
  end.

Definition run (st : state) (evs : list event) : state := foldl step st evs.
End Runs.

(** [old] is among the oldest of the dictionaries named by [l]: no
    capture time in [l] is before its own. *)
Definition minimum_of (h : list entry) (old : nat) (l : list nat) : Prop :=
  Forall (fun b => (key_at h old <= key_at h b)%Z) l.

(** The ways a fetch that succeeded as an HTTP exchange can still carry
    a rate of zero: the bid is the number 0 (an [int] or a [float]), the
    bid converts to a zero rate (the text of zero), or the reference rate
    comes out as zero. *)
Inductive zero_rate `{Builtins} (valr exch : pyobj) : Prop :=
| bid_is_int_zero :
    method_get valr "bidPrice" = Some (PyInt 0) -> zero_rate valr exch
| bid_is_float_zero (x : float) :
    method_get valr "bidPrice" = Some (PyFloat x) ->
    PrimFloat.eqb x 0 = true -> zero_rate valr exch
| bid_converts_to_zero (x : float) :
    get_valr_usdc_zar_rate (Some valr) = Some x ->
    PrimFloat.eqb x 0 = true -> zero_rate valr exch
| reference_rate_is_zero (x : float) :
    get_exchange_rate (Some exch) = Some x ->
    PrimFloat.eqb x 0 = true -> zero_rate valr exch.

(** Every address in [profit_history] names a stored dictionary, and no
    dictionary is listed twice. *)
Definition well_formed (st : state) : Prop :=
  Forall (fun a => a < length (heap st)) (profit_history st) /\
  NoDup (profit_history st).

(** The ['timestamp'] values of the history, in list order. *)
Definition timestamps (st : state) : list timestamp :=
  (fun e => Report.timestamp (e_report e)) <$> entries st.

(** The ['timestamp'] values of the JSON array [/get_profit_history]
    answers with, in the order of the array. *)
Definition answer_timestamps (r : response) : list timestamp :=
  match resp_body r with
  | JsonHistory l => Report.timestamp <$> l
  | _ => []
  end.

(** The two clock readings of an event that calculates, the one inside
    the calculator (line 85) and the one stored as ['datetime'] (line 105
    or 706), fall in the same second. *)
Definition same_second (ev : event) : bool :=
  match ev with
  | Poll _ _ now1 now2 => (strftime now1 =? strftime now2)%Z
  | ProfitDataRequest _ _ _ now1 now2 => (strftime now1 =? strftime now2)%Z
  | _ => true
  end.

(** The key a dictionary is sorted by lies in the second its timestamp
    names. *)
Definition in_its_second (e : entry) : Prop :=
  strftime (capture_time e) = Report.timestamp (e_report e).

Definition is_poll (ev : event) : bool :=
  match ev with
  | Poll _ _ _ _ => true
  | _ => false
  end.

Definition is_settings_request (ev : event) : bool :=
  match ev with
  | SettingsRequest _ => true
  | _ => false
  end.

(* ================================================================== *)
(** * Sample data *)
(* ================================================================== *)

Module Sample.
Open Scope float_scope.

(** The values of CPython's conversions on the texts and numbers the
    examples below use; nothing is said about other arguments. *)
Definition builtins : Builtins := {|
  float_of_str s :=
    if String.eqb s "18.5" then Some 18.5
    else if String.eqb s "18.50" then Some 18.5
    else if String.eqb s "1000" then Some 1000
    else if String.eqb s "0" then Some 0
    else None;
  float_of_int n :=
    if (n =? 0)%Z then Some 0
    else if (n =? 1)%Z then Some 1
    else if (n =? 20000)%Z then Some 20000
    else None;
  int_truediv a b :=
    if ((a =? 1) && (b =? 1))%Z then Some 1 else None;
  float_repr x :=
    if PrimFloat.eqb x 20000 then "20000.0"%string
    else if PrimFloat.eqb x 1000 then "1000.0"%string
    else "18000.0"%string
|}.

(** A market summary with a bid of 18.50. *)
Definition valr_body : pyobj := PyDict [("bidPrice"%string, PyStr "18.5")].

(** A rate table whose USD entry has the reciprocal 18.4. *)
Definition exch_body : pyobj :=
  PyDict [("result"%string, PyStr "success");
          ("conversion_rates"%string,
           PyDict [("USD"%string, PyFloat 0.05434782608695653)])].

(** A market summary whose bid is the text of zero. *)
Definition valr_zero_text : pyobj := PyDict [("bidPrice"%string, PyStr "0")].

Definition start : state := initial_state 18000 1000 (Some []).

(** A clock reading, and the readings [ms] milliseconds after it. *)
Definition t0 : datetime := 63900000000000000%Z.
Definition after (ms : Z) : datetime := (t0 + ms * 1000)%Z.

(** A turn of the polling loop and a request for the profit data, each
    reading the clock at [ms] and one millisecond later, both feeds
    answering. *)
Definition poll_at (ms : Z) : event :=
  Poll (Some valr_body) (Some exch_body) (after ms) (after (ms + 1)).
Definition request_at (ms : Z) : event :=
  ProfitDataRequest (Some "1000"%string) (Some valr_body) (Some exch_body)
    (after ms) (after (ms + 1)).

(** The state after one request has been served. *)
Definition one_stored : state := @run builtins start [request_at 0].

(** A request and, four tenths of a second later, a turn of the loop. *)
Definition same_second : state :=
  @run builtins start [request_at 100; poll_at 500].

(** A thousand turns of the loop, 301 seconds apart, during which the
    wall clock was set back an hour after the first turn. *)
Definition clock_set_back : list event :=
  poll_at 0 ::
  map (fun k => poll_at (Z.of_nat k * 301000 - 3600000)) (seq 1 999).
Definition full : state := @run builtins start clock_set_back.

(** A [.env] file with the two settings and one other line, the same
    file without its [RANDS] line, and the body of a settings request
    that carries only the initial investment. *)
Definition ln (s : string) : string := String.append s newline.
Definition env_file : list string :=
  [ln "VALR_API_KEY=k"; ln "RANDS=18000"; ln "USD_PURCHASED=1000"].
Definition env_file_without_rands : list string :=
  [ln "VALR_API_KEY=k"; ln "USD_PURCHASED=1000"].
Definition only_initial_investment : list (string * pyobj) :=
  [("initial_investment"%string, PyInt 20000)].
Definition configured : state := initial_state 18000 1000 (Some env_file).
Definition configured_without_rands : state :=
  initial_state 18000 1000 (Some env_file_without_rands).
Definition overflowed : state :=
  @update_profit_history builtins (Some valr_body) (Some exch_body)
    (after 297400000) (after 297400001) full.

(** Bodies of settings requests: one that carries only the dollar
    amount, one with both settings, one whose dollar amount is not a
    number; and a process started where there is no [.env] file. *)
Definition only_usd_purchased : list (string * pyobj) :=
  [("usd_purchased"%string, PyInt 20000)].
Definition both_settings : list (string * pyobj) :=
  [("initial_investment"%string, PyInt 20000);
   ("usd_purchased"%string, PyStr "1000")].
Definition malformed_usd_purchased : list (string * pyobj) :=
  [("initial_investment"%string, PyInt 20000);
   ("usd_purchased"%string, PyStr "abc")].
Definition without_file : state := initial_state 18000 1000 None.

(** A turn of the polling loop in the second after [t0], and a request
    whose calculator read the clock a millisecond before that second
    began and whose handler read it again two milliseconds into it: the
    readings the code gets when the wall clock is stepped back two
    milliseconds after the loop's turn, or when the loop's turn runs
    between the two readings of the request. *)
Definition poll_in_next_second : event :=
  Poll (Some valr_body) (Some exch_body) (after 1000) (after 1001).
Definition request_across_seconds : event :=
  ProfitDataRequest (Some "1000"%string) (Some valr_body) (Some exch_body)
    (after 999) (after 1002).
Definition crossed : state :=
  @run builtins start [poll_in_next_second; request_across_seconds].

End Sample.

(* ================================================================== *)
(** * Facts about binary64 comparisons *)
(* ================================================================== *)

Lemma zero_SF : Prim2SF 0%float = S754_zero false.
Proof. reflexivity. Qed.

Lemma positive_truthy (x : float) :
  PrimFloat.ltb 0 x = true -> float_truthy x = true.
Proof.
  unfold float_truthy. intros Hpos.
  rewrite FloatAxioms.ltb_spec in Hpos. rewrite FloatAxioms.eqb_spec.
  rewrite zero_SF in *.
  destruct (Prim2SF x) as [s|s| |s m e]; try destruct s; cbn in *; congruence.
Qed.

Lemma nonpositive_not_positive (x : float) :
  PrimFloat.leb x 0 = true -> PrimFloat.ltb 0 x = false.
Proof.
  intros Hle.
  rewrite FloatAxioms.leb_spec in Hle. rewrite FloatAxioms.ltb_spec.
  rewrite zero_SF in *.
  destruct (Prim2SF x) as [s|s| |s m e]; try destruct s; cbn in *; congruence.
Qed.

(* ================================================================== *)
(** * The calculator *)
(* ================================================================== *)

Section CalculatorFacts.
Context `{Builtins}.
Open Scope float_scope.

Lemma usable_Some (rate : option float) (x : float) :
  usable rate = Some x <-> rate = Some x /\ float_truthy x = true.
Proof.
  unfold usable. destruct rate as [y|]; [|split; [discriminate|intros []; discriminate]].
  destruct (float_truthy y) eqn:Hy; split.
  - intros [= <-]. auto.
  - intros [[= <-] _]. reflexivity.
  - discriminate.
  - intros [[= <-] Hx]. congruence.
Qed.

Lemma usable_None (rate : option float) :
  usable rate = None <->
  rate = None \/ exists x, rate = Some x /\ PrimFloat.eqb x 0 = true.
Proof.
  unfold usable, float_truthy. destruct rate as [y|].
  - destruct (PrimFloat.eqb y 0) eqn:Hy; cbn; split; try discriminate.
    + intros _. right. exists y. auto.
    + reflexivity.
    + intros [|(x & [= <-] & Hx)]; congruence.
  - split; auto.
Qed.

Lemma divide_truthy (a b : float) :
  float_truthy b = true -> divide a b = Returned (a / b).
Proof.
  unfold divide, float_truediv, float_truthy.
  destruct (PrimFloat.eqb b 0); [discriminate|reflexivity].
Qed.

(** The two divisions of the calculator are never reached with a zero
    divisor: it returns on every input. *)
Lemma calculate_arb_profit_returns
    (initial_investment env_usd : float) (usd : option float)
    (valr exch : http_outcome) (now : datetime) :
  exists o, calculate_arb_profit initial_investment env_usd usd valr exch now
            = Returned o.
Proof.
  unfold calculate_arb_profit.
  destruct (usable (get_valr_usdc_zar_rate valr)) as [hb|] eqn:Hhb; [|eauto].
  destruct (usable (get_exchange_rate exch)) as [mr|] eqn:Hmr; [|eauto].
  apply usable_Some in Hmr as [_ Hmr].
  destruct (0 <? initial_investment) eqn:Hii; cbn.
  - rewrite (divide_truthy _ initial_investment (positive_truthy _ Hii)). cbn.
    rewrite (divide_truthy _ mr Hmr). cbn. eauto.
  - rewrite (divide_truthy _ mr Hmr). cbn. eauto.
Qed.

Lemma calculate_arb_profit_unavailable
    (initial_investment env_usd : float) (usd : option float)
    (valr exch : http_outcome) (now : datetime) :
  usable (get_valr_usdc_zar_rate valr) = None \/
  usable (get_exchange_rate exch) = None ->
  calculate_arb_profit initial_investment env_usd usd valr exch now
  = Returned None.
Proof.
  unfold calculate_arb_profit. intros [-> | ->]; [reflexivity|].
  destruct (usable (get_valr_usdc_zar_rate valr)); reflexivity.
Qed.
End CalculatorFacts.

(** C1.  When both fetchers deliver a positive rate, the calculator
    returns a report, for every amount of dollars (given or defaulted),
    and in it the wire fee is [max(0.0013 * usd_purchased, 10)], the
    final amount is [(usd_purchased - wire_fee) * (valr_rate + 0.001) - 30],
    the profit is the final amount less the initial investment, and the
    spread is [(valr_rate / market_rate - 1) * 100]. *)
Theorem calculate_arb_profit_formulas `{Builtins}
    (initial_investment env_usd : float) (usd : option float)
    (valr exch : http_outcome) (now : datetime) (valr_rate market_rate : float) :
  get_valr_usdc_zar_rate valr = Some valr_rate ->
  get_exchange_rate exch = Some market_rate ->
  PrimFloat.ltb 0 valr_rate = true ->
  PrimFloat.ltb 0 market_rate = true ->
  exists r : Report.t,
    calculate_arb_profit initial_investment env_usd usd valr exch now
    = Returned (Some r) /\
    Report.valr_rate r = valr_rate /\
    Report.market_rate r = market_rate /\
    Report.wire_fee r = py_max (0.0013 * default env_usd usd) 10 /\
    Report.final_zar r
    = ((default env_usd usd - Report.wire_fee r) * (valr_rate + 0.001) - 30)%float /\
    Report.profit_zar r = (Report.final_zar r - initial_investment)%float /\
    Report.spread r = ((valr_rate / market_rate - 1) * 100)%float.
Proof.
  intros Hv Hm Hvpos Hmpos.
  pose proof (positive_truthy _ Hvpos) as Hvt.
  pose proof (positive_truthy _ Hmpos) as Hmt.
  unfold calculate_arb_profit. rewrite Hv, Hm. cbn. rewrite Hvt, Hmt.
  rewrite (divide_truthy valr_rate market_rate Hmt).
  destruct (PrimFloat.ltb 0 initial_investment) eqn:Hii; cbn.
  - rewrite (divide_truthy _ initial_investment (positive_truthy _ Hii)). cbn.
    eexists. split; [reflexivity|]. cbn. repeat split.
  - eexists. split; [reflexivity|]. cbn. repeat split.
Qed.

Lemma calculate_arb_profit_formulas_witness :
  @get_valr_usdc_zar_rate Sample.builtins (Some Sample.valr_body) = Some 18.5%float /\
  @get_exchange_rate Sample.builtins (Some Sample.exch_body) = Some 18.4%float /\
  exists r : Report.t,
    @calculate_arb_profit Sample.builtins 18000 1000 (Some 1000%float)
      (Some Sample.valr_body) (Some Sample.exch_body) Sample.t0
    = Returned (Some r) /\
    Report.wire_fee r = 10%float /\
    Report.spread r = ((18.5 / 18.4 - 1) * 100)%float.
Proof.
  split; [reflexivity|]. split; [reflexivity|].
  destruct (@calculate_arb_profit_formulas Sample.builtins 18000 1000
              (Some 1000%float) (Some Sample.valr_body) (Some Sample.exch_body)
              Sample.t0 18.5 18.4 eq_refl eq_refl eq_refl eq_refl)
    as (r & Hr & _ & _ & Hw & _ & _ & Hs).
  exists r. split; [exact Hr|]. split; [exact Hw | exact Hs].
Defined.

(** Two binary64 values that compare unequal are different. *)
Lemma float_eqb_false_neq (x y : float) :
  PrimFloat.eqb x y = false -> PrimFloat.eqb x x = true -> x <> y.
Proof. intros Hxy Hxx Heq. rewrite <- Heq in Hxy. congruence. Qed.

(** C2 (as amended).  With 1000 dollars, a bid of 18.50, a reference
    rate of 18.40 and 18000 rand invested, 0.13 percent of the amount is
    1.3 and below the floor, so the wire fee is 10, 990 dollars are left,
    the selling rate is 18.501, the final amount is 18285.99, the profit
    is 285.9900000000016 and the spread is (18.50/18.40-1)*100, which is
    0.5434782608695787. *)
Theorem example_report :
  @calculate_arb_profit Sample.builtins 18000 1000 (Some 1000%float)
    (Some Sample.valr_body) (Some Sample.exch_body) Sample.t0
  = Returned (Some {|
      Report.timestamp := 63900000000%Z;
      Report.valr_rate := 18.5;
      Report.market_rate := 18.4;
      Report.spread := 0.5434782608695787;
      Report.initial_zar := 18000;
      Report.usd_purchased := 1000;
      Report.wire_fee := 10;
      Report.final_zar := 18285.99;
      Report.profit_zar := 285.9900000000016;
      Report.profit_percent := 1.588833333333342 |}) /\
  wire_transfer_fee 1000 = 10%float /\
  usd_after_wire 1000 = 990%float /\
  sell_rate 18.5 = 18.501%float /\
  final_zar 1000 18.5 = 18285.99%float /\
  ((18.5 / 18.4 - 1) * 100 = 0.5434782608695787)%float.
Proof. repeat split. Qed.

(** C2 as the specification words it fails: the report's wire fee is not
    13.0 (nor are 987.0 dollars left, nor is the final amount
    18231.987). *)
Lemma example_report_is_not_the_specified_one :
  ~ exists r : Report.t,
      @calculate_arb_profit Sample.builtins 18000 1000 (Some 1000%float)
        (Some Sample.valr_body) (Some Sample.exch_body) Sample.t0
      = Returned (Some r) /\
      Report.wire_fee r = 13%float /\
      usd_after_wire 1000 = 987%float /\
      sell_rate 18.5 = 18.501%float /\
      Report.final_zar r = 18231.987%float /\
      Report.profit_zar r = 231.987%float /\
      Report.spread r = ((18.5 / 18.4 - 1) * 100)%float.
Proof.
  intros (r & Hr & Hfee & _).
  destruct example_report as (Hcalc & _).
  rewrite Hcalc in Hr. injection Hr as <-. cbn in Hfee.
  revert Hfee. apply float_eqb_false_neq; reflexivity.
Qed.

(** C3.  When the initial investment is zero or negative the calculator
    does not raise (the division by it is not reached), and every report
    it returns has a profit percentage of 0, whatever the profit is. *)
Theorem profit_percent_guard `{Builtins}
    (initial_investment env_usd : float) (usd : option float)
    (valr exch : http_outcome) (now : datetime) :
  PrimFloat.leb initial_investment 0 = true ->
  calculate_arb_profit initial_investment env_usd usd valr exch now <> Raised /\
  forall r : Report.t,
    calculate_arb_profit initial_investment env_usd usd valr exch now
    = Returned (Some r) ->
    Report.profit_percent r = 0%float.
Proof.
  intros Hle. split.
  - destruct (calculate_arb_profit_returns initial_investment env_usd usd valr exch now)
      as [o ->]. discriminate.
  - intros r. unfold calculate_arb_profit.
    destruct (usable (get_valr_usdc_zar_rate valr)) as [hb|]; [|discriminate].
    destruct (usable (get_exchange_rate exch)) as [mr|] eqn:Hmr; [|discriminate].
    apply usable_Some in Hmr as [_ Hmr].
    rewrite (nonpositive_not_positive _ Hle). cbn.
    rewrite (divide_truthy hb mr Hmr). cbn. intros [= <-]. reflexivity.
Qed.

Lemma profit_percent_guard_witness :
  PrimFloat.leb (-18000) 0 = true /\
  exists r : Report.t,
    @calculate_arb_profit Sample.builtins (-18000) 1000 None
      (Some Sample.valr_body) (Some Sample.exch_body) Sample.t0
    = Returned (Some r) /\
    Report.profit_zar r = 36285.990000000005%float /\
    Report.profit_percent r = 0%float.
Proof.
  split; [reflexivity|].
  pose proof (proj2 (@profit_percent_guard Sample.builtins (-18000) 1000 None
                       (Some Sample.valr_body) (Some Sample.exch_body) Sample.t0
                       eq_refl)) as Hguard.
  destruct (@calculate_arb_profit Sample.builtins (-18000) 1000 None
              (Some Sample.valr_body) (Some Sample.exch_body) Sample.t0)
    as [|[r|]] eqn:Hcalc; [discriminate Hcalc| |discriminate Hcalc].
  exists r. split; [reflexivity|]. split; [|apply Hguard; reflexivity].
  vm_compute in Hcalc. injection Hcalc as <-. reflexivity.
Defined.

(* ================================================================== *)
(** * Unavailable rates *)
(* ================================================================== *)

Section Unavailable.
Context `{Builtins}.

Lemma get_profit_data_unavailable
    (param : option string) (valr exch : http_outcome) (now1 now2 : datetime)
    (st : state) :
  usable (get_valr_usdc_zar_rate valr) = None \/
  usable (get_exchange_rate exch) = None ->
  fst (get_profit_data param valr exch now1 now2 st) = st /\
  resp_status (snd (get_profit_data param valr exch now1 now2 st)) = 500%Z /\
  (forall u, usd_purchased_value param st = Some u ->
     snd (get_profit_data param valr exch now1 now2 st)
     = {| resp_body := JsonError "Failed to calculate profit";
          resp_status := 500 |}).
Proof.
  intros Hun. unfold get_profit_data.
  destruct (usd_purchased_value param st) as [u|].
  - rewrite (calculate_arb_profit_unavailable _ _ _ _ _ _ Hun). cbn.
    repeat split.
  - cbn. repeat split. discriminate.
Qed.

Lemma update_profit_history_unavailable
    (valr exch : http_outcome) (now1 now2 : datetime) (st : state) :
  usable (get_valr_usdc_zar_rate valr) = None \/
  usable (get_exchange_rate exch) = None ->
  update_profit_history valr exch now1 now2 st = st.
Proof.
  intros Hun. unfold update_profit_history.
  rewrite (calculate_arb_profit_unavailable _ _ _ _ _ _ Hun). reflexivity.
Qed.

Lemma unavailable_unusable (valr exch : http_outcome) :
  get_valr_usdc_zar_rate valr = None \/ get_exchange_rate exch = None ->
  usable (get_valr_usdc_zar_rate valr) = None \/
  usable (get_exchange_rate exch) = None.
Proof. intros [-> | ->]; auto. Qed.

Lemma zero_rate_unusable (valr exch : pyobj) :
  zero_rate valr exch ->
  usable (get_valr_usdc_zar_rate (Some valr)) = None \/
  usable (get_exchange_rate (Some exch)) = None.
Proof.
  intros [Hbid | x Hbid Hx | x Hrate Hx | x Hrate Hx].
  - left. cbn. rewrite Hbid. reflexivity.
  - left. cbn. rewrite Hbid. cbn. unfold float_truthy. rewrite Hx. reflexivity.
  - left. apply usable_None. right. eauto.
  - right. apply usable_None. right. eauto.
Qed.
End Unavailable.

(** C8.  When either fetcher reports its rate unavailable, the
    calculator returns no result whatever its other inputs are,
    [/get_profit_data] leaves the whole state (the history included) as
    it was and answers with status 500, the answer being the JSON error
    whenever the handler got as far as the calculator, and a turn of the
    polling loop stores nothing either. *)
Theorem failed_fetch_no_report `{Builtins}
    (param : option string) (valr exch : http_outcome) (now1 now2 : datetime)
    (st : state) :
  get_valr_usdc_zar_rate valr = None \/ get_exchange_rate exch = None ->
  (forall (ii env_usd : float) (usd : option float) (now : datetime),
     calculate_arb_profit ii env_usd usd valr exch now = Returned None) /\
  fst (get_profit_data param valr exch now1 now2 st) = st /\
  resp_status (snd (get_profit_data param valr exch now1 now2 st)) = 500%Z /\
  (forall u, usd_purchased_value param st = Some u ->
     snd (get_profit_data param valr exch now1 now2 st)
     = {| resp_body := JsonError "Failed to calculate profit";
          resp_status := 500 |}) /\
  update_profit_history valr exch now1 now2 st = st.
Proof.
  intros Hun. apply unavailable_unusable in Hun.
  split; [intros; apply calculate_arb_profit_unavailable; exact Hun|].
  destruct (get_profit_data_unavailable param valr exch now1 now2 st Hun)
    as (Hst & Hstatus & Hbody).
  repeat split; auto using update_profit_history_unavailable.
Qed.

Lemma failed_fetch_no_report_witness :
  @get_exchange_rate Sample.builtins None = None /\
  fst (@get_profit_data Sample.builtins (Some "1000"%string)
         (Some Sample.valr_body) None Sample.t0 (Sample.after 1) Sample.start)
  = Sample.start /\
  snd (@get_profit_data Sample.builtins (Some "1000"%string)
         (Some Sample.valr_body) None Sample.t0 (Sample.after 1) Sample.start)
  = {| resp_body := JsonError "Failed to calculate profit"; resp_status := 500 |}.
Proof.
  split; [reflexivity|].
  destruct (@failed_fetch_no_report Sample.builtins (Some "1000"%string)
              (Some Sample.valr_body) None Sample.t0 (Sample.after 1) Sample.start
              (or_intror eq_refl))
    as (_ & Hst & _ & Hbody & _).
  split; [exact Hst|]. apply (Hbody 1000%float). reflexivity.
Defined.

(** C10.  When both HTTP exchanges succeed but a rate is exactly zero
    (the bid is the number 0, or converts to 0, or the reference rate is
    0), the truth tests of lines 30 and 63 count the rate as missing: the
    calculator returns no report, [/get_profit_data] stores nothing and
    answers 500, and the polling loop stores nothing. *)
Theorem zero_rate_no_report `{Builtins}
    (valr exch : pyobj) (ii env_usd : float) (usd : option float)
    (param : option string) (now1 now2 : datetime) (st : state) :
  zero_rate valr exch ->
  calculate_arb_profit ii env_usd usd (Some valr) (Some exch) now1 = Returned None /\
  fst (get_profit_data param (Some valr) (Some exch) now1 now2 st) = st /\
  resp_status (snd (get_profit_data param (Some valr) (Some exch) now1 now2 st))
  = 500%Z /\
  update_profit_history (Some valr) (Some exch) now1 now2 st = st.
Proof.
  intros Hzero. apply zero_rate_unusable in Hzero.
  split; [apply calculate_arb_profit_unavailable; exact Hzero|].
  destruct (get_profit_data_unavailable param (Some valr) (Some exch) now1 now2 st Hzero)
    as (Hst & Hstatus & _).
  repeat split; auto using update_profit_history_unavailable.
Qed.

Lemma zero_rate_no_report_witness :
  @zero_rate Sample.builtins Sample.valr_zero_text Sample.exch_body /\
  @get_valr_usdc_zar_rate Sample.builtins (Some Sample.valr_zero_text) = Some 0%float /\
  @calculate_arb_profit Sample.builtins 18000 1000 None
    (Some Sample.valr_zero_text) (Some Sample.exch_body) Sample.t0
  = Returned None.
Proof.
  assert (Hzero : @zero_rate Sample.builtins Sample.valr_zero_text Sample.exch_body)
    by (apply (@bid_converts_to_zero Sample.builtins _ _ 0%float); reflexivity).
  split; [exact Hzero|]. split; [reflexivity|].
  exact (proj1 (@zero_rate_no_report Sample.builtins Sample.valr_zero_text
                  Sample.exch_body 18000 1000 None None Sample.t0 Sample.t0
                  Sample.start Hzero)).
Defined.

(* ================================================================== *)
(** * Sorting by key *)
(* ================================================================== *)

Section SortFacts.
Context {A : Type} (key : A -> Z).

Let le (x y : A) : Prop := (key x <= key y)%Z.

Lemma insert_by_Permutation (a : A) (l : list A) :
  insert_by key a l ≡ₚ a :: l.
Proof.
  induction l as [|b l IH]; cbn; [reflexivity|].
  destruct (key a <=? key b)%Z; [reflexivity|].
  rewrite IH. apply perm_swap.
Qed.

Lemma sort_by_Permutation (l : list A) : sort_by key l ≡ₚ l.
Proof.
  induction l as [|a l IH]; cbn; [reflexivity|].
  rewrite insert_by_Permutation, IH. reflexivity.
Qed.


Lemma insert_by_sorted (a : A) (l : list A) :
  StronglySorted le l -> StronglySorted le (insert_by key a l).
Proof.
  induction 1 as [|b l Hl IH Hb]; cbn.
  - repeat constructor.
  - destruct (key a <=? key b)%Z eqn:Hab.
    + apply Z.leb_le in Hab. constructor; [constructor; assumption|].
      constructor; [exact Hab|].
      eapply Forall_impl; [exact Hb|]. unfold le. cbn. intros. lia.
    + apply Z.leb_gt in Hab. constructor; [exact IH|].
      rewrite insert_by_Permutation. constructor; [unfold le; lia|exact Hb].
Qed.

Lemma sort_by_sorted (l : list A) : StronglySorted le (sort_by key l).
Proof.
  induction l as [|a l IH]; cbn; [constructor|].
  apply insert_by_sorted, IH.
Qed.

End SortFacts.

(* ================================================================== *)
(** * The history snapshot *)
(* ================================================================== *)

(** After the loop of lines 731-733 a dictionary the loop visited has no
    ['datetime'] key, and one it did not visit is as it was. *)
Lemma del_all_lookup (ids : list nat) (h : list entry) (a : nat) :
  del_all h ids !! a
  = if decide (a ∈ ids) then del_datetime <$> h !! a else h !! a.
Proof.
  revert h. induction ids as [|b ids IH]; intros h; cbn.
  - destruct (decide (a ∈ [])) as [Hin|]; [inversion Hin|reflexivity].
  - unfold del_all in IH. rewrite IH.
    destruct (decide (b = a)) as [->|Hne].
    + rewrite list_lookup_alter_eq.
      destruct (decide (a ∈ a :: ids)) as [_|Hn]; [|exfalso; apply Hn; left].
      destruct (decide (a ∈ ids)); destruct (h !! a); reflexivity.
    + rewrite (list_lookup_alter_ne _ _ _ _ Hne).
      destruct (decide (a ∈ ids)) as [Hin|Hnin].
      * destruct (decide (a ∈ b :: ids)) as [_|Hn]; [reflexivity|].
        exfalso. apply Hn. right. exact Hin.
      * destruct (decide (a ∈ b :: ids)) as [Hin|_]; [|reflexivity].
        apply elem_of_cons in Hin as [->|Hin]; [congruence|contradiction].
Qed.

Lemma omap_lookup_fmap {B : Type} (f : entry -> B) (h : list entry) (ids : list nat) :
  omap (fun a => f <$> h !! a) ids = f <$> omap (fun a => h !! a) ids.
Proof.
  induction ids as [|a ids IH]; cbn; [reflexivity|].
  rewrite IH. destruct (h !! a); reflexivity.
Qed.

Lemma omap_ext_in {B : Type} (f g : nat -> option B) (ids : list nat) :
  (forall a, a ∈ ids -> f a = g a) -> omap f ids = omap g ids.
Proof.
  induction ids as [|a ids IH]; intros Hfg; cbn; [reflexivity|].
  rewrite (Hfg a) by left. rewrite IH; [reflexivity|].
  intros b Hb. apply Hfg. right. exact Hb.
Qed.

(** Addresses in key order name dictionaries in capture order. *)
Lemma sorted_entries (h : list entry) (ids : list nat) :
  StronglySorted (fun a b => (key_at h a <= key_at h b)%Z) ids ->
  StronglySorted (fun x y => (capture_time x <= capture_time y)%Z)
    (omap (fun a => h !! a) ids).
Proof.
  induction 1 as [|a ids Hs IH Ha]; cbn; [constructor|].
  destruct (h !! a) as [e|] eqn:He; [|exact IH].
  constructor; [exact IH|].
  apply Forall_forall. intros y Hy.
  apply list_elem_of_omap in Hy as (b & Hb & Hlook).
  rewrite Forall_forall in Ha. specialize (Ha b Hb).
  unfold key_at in Ha. rewrite He, Hlook in Ha. exact Ha.
Qed.

(** The snapshot's answer, and what it leaves in the store. *)
Lemma get_profit_history_answer (st : state) :
  snd (get_profit_history st)
  = {| resp_body :=
         JsonHistory
           (e_report <$> omap (fun a => heap st !! a)
                           (sort_by (key_at (heap st)) (profit_history st)));
       resp_status := 200 |}.
Proof.
  unfold get_profit_history. cbn. f_equal. f_equal.
  rewrite <- omap_lookup_fmap. apply omap_ext_in. intros a Ha.
  rewrite del_all_lookup. destruct (decide _); [|reflexivity].
  destruct (heap st !! a); reflexivity.
Qed.

(** What [/get_profit_history] leaves behind, in every state: the list
    [profit_history] names the same dictionaries in the same order, and
    each of them is without its ['datetime'] key (the deletions of lines
    731-733 reach the stored dictionaries through the copied list). *)
Theorem get_profit_history_entries (st : state) :
  profit_history (fst (get_profit_history st)) = profit_history st /\
  entries (fst (get_profit_history st)) = del_datetime <$> entries st.
Proof.
  split; [reflexivity|].
  unfold entries, get_profit_history. cbn.
  rewrite <- omap_lookup_fmap. apply omap_ext_in. intros a Ha.
  rewrite del_all_lookup.
  destruct (decide _) as [_|Hn]; [reflexivity|].
  exfalso. apply Hn. rewrite sort_by_Permutation. exact Ha.
Qed.

(** For every state, the answer of [/get_profit_history] lists the
    reports of all the dictionaries of the history, each once, in
    ascending order of the key of lines 726-728 (the ['datetime'] value,
    or the parsed timestamp where that key is gone), with status 200. *)
Theorem get_profit_history_sorted (st : state) :
  exists es : list entry,
    es ≡ₚ entries st /\
    StronglySorted (fun x y => (capture_time x <= capture_time y)%Z) es /\
    snd (get_profit_history st)
    = {| resp_body := JsonHistory (e_report <$> es); resp_status := 200 |}.
Proof.
  exists (omap (fun a => heap st !! a)
            (sort_by (key_at (heap st)) (profit_history st))).
  split; [|split].
  - unfold entries. rewrite sort_by_Permutation. reflexivity.
  - apply sorted_entries, sort_by_sorted.
  - apply get_profit_history_answer.
Qed.

(** C6, at a concrete run: the polling loop stores a report in the
    second after [t0]; a request whose calculator read the clock in the
    second before, and whose handler read it again after the loop's
    turn, stores a report with the earlier timestamp and the later
    ['datetime'].  [/get_profit_history] sorts by ['datetime'] and answers
    with the later timestamp first: the array is not ascending by
    timestamp.  The call deletes the ['datetime'] keys of the stored
    dictionaries, so the next call sorts by timestamp and answers with
    the same reports in the other order. *)
Theorem snapshot_not_in_timestamp_order :
  timestamps Sample.crossed = [63900000001%Z; 63900000000%Z] /\
  (e_datetime <$> entries Sample.crossed)
  = [Some (Sample.after 1001); Some (Sample.after 1002)] /\
  answer_timestamps (snd (get_profit_history Sample.crossed))
  = [63900000001%Z; 63900000000%Z] /\
  answer_timestamps
    (snd (get_profit_history (fst (get_profit_history Sample.crossed))))
  = [63900000000%Z; 63900000001%Z].
Proof. repeat split. Qed.

(** C7, at a concrete state: after one request has been served the
    stored dictionary has its ['datetime'] key; once
    [/get_profit_history] has answered, the same dictionary in
    [profit_history] has lost it, and is ordered from then on by the
    whole second of its timestamp. *)
Theorem snapshot_deletes_stored_datetime :
  e_datetime <$> entries Sample.one_stored = [Some (Sample.after 1)] /\
  e_datetime <$> entries (fst (get_profit_history Sample.one_stored)) = [None] /\
  capture_time <$> entries Sample.one_stored = [63900000000001000%Z] /\
  capture_time <$> entries (fst (get_profit_history Sample.one_stored))
  = [63900000000000000%Z].
Proof. repeat split. Qed.

(** C5, at a concrete run: a request stores a report, and a turn of the
    polling loop within the same second stores a second one with the
    same timestamp. *)
Theorem poll_stores_duplicate_timestamp :
  (fun e => Report.timestamp (e_report e)) <$> entries Sample.same_second
  = [63900000000%Z; 63900000000%Z].
Proof. reflexivity. Qed.

(* ================================================================== *)
(** * The capacity of the history *)
(* ================================================================== *)

Section Capacity.
Context `{Builtins}.

(** A turn of the loop leaves the state alone or stores one dictionary
    and keeps the last thousand addresses of the list. *)
Lemma update_profit_history_cases
    (valr exch : http_outcome) (now1 now2 : datetime) (st : state) :
  update_profit_history valr exch now1 now2 st = st \/
  exists r : Report.t,
    heap (update_profit_history valr exch now1 now2 st)
    = heap st ++ [mk_entry r (Some now2)] /\
    profit_history (update_profit_history valr exch now1 now2 st)
    = (if 1000 <? length (profit_history st ++ [length (heap st)])
       then drop (length (profit_history st ++ [length (heap st)]) - 1000)
              (profit_history st ++ [length (heap st)])
       else profit_history st ++ [length (heap st)]).
Proof.
  unfold update_profit_history.
  destruct (calculate_arb_profit _ _ _ _ _ _) as [|[r|]]; [left| |left]; try reflexivity.
  right. exists r. unfold append_entry.
  cbn [heap profit_history set_history set_last_refresh_time].
  destruct (1000 <? length (profit_history st ++ [length (heap st)]));
    split; reflexivity.
Qed.

(** The handler leaves the state alone or stores one dictionary and,
    past a thousand, sorts the list and drops its first address. *)
Lemma get_profit_data_cases
    (param : option string) (valr exch : http_outcome) (now1 now2 : datetime)
    (st : state) :
  fst (get_profit_data param valr exch now1 now2 st) = st \/
  exists r : Report.t,
    heap (fst (get_profit_data param valr exch now1 now2 st))
    = heap st ++ [mk_entry r (Some now2)] /\
    profit_history (fst (get_profit_data param valr exch now1 now2 st))
    = (if 1000 <? length (profit_history st ++ [length (heap st)])
       then tail (sort_by (key_at (heap st ++ [mk_entry r (Some now2)]))
                    (profit_history st ++ [length (heap st)]))
       else profit_history st ++ [length (heap st)]).
Proof.
  unfold get_profit_data.
  destruct (usd_purchased_value param st) as [u|]; [|left; reflexivity].
  destruct (calculate_arb_profit _ _ _ _ _ _) as [|[r|]]; [left| |left]; try reflexivity.
  cbn [fst]. destruct (timestamp_present st (Report.timestamp r)); [left; reflexivity|].
  right. exists r. unfold append_entry.
  cbn [heap profit_history set_history].
  destruct (1000 <? length (profit_history st ++ [length (heap st)]));
    split; reflexivity.
Qed.

Lemma update_settings_history (data : list (string * pyobj)) (st : state) :
  profit_history (fst (update_settings data st)) = profit_history st /\
  heap (fst (update_settings data st)) = heap st.
Proof.
  unfold update_settings.
  destruct (read_setting data "initial_investment" _); [|split; reflexivity].
  cbn. destruct (read_setting data "usd_purchased" _); [|split; reflexivity].
  cbn. destruct (dotenv st); split; reflexivity.
Qed.




End Capacity.



(** C4, at a concrete run: after a thousand turns of the polling loop
    during which the wall clock was once set back, the next turn makes
    the size exceed a thousand and the loop removes the entry at the
    front of the list (the first dictionary, timestamp 63900000000),
    while the dictionary stored second, whose timestamp 63899996701 and
    stored clock reading are both earlier, stays and is now at the front:
    the entry removed is not the chronologically oldest one. *)
Theorem polling_loop_removes_front_not_oldest :
  length (profit_history Sample.full) = 1000 /\
  length (profit_history Sample.full ++ [length (heap Sample.full)]) = 1001 /\
  length (profit_history Sample.overflowed) = 1000 /\
  head (profit_history Sample.full) = Some 0 /\
  head (profit_history Sample.overflowed) = Some 1 /\
  (0 ∉ profit_history Sample.overflowed) /\
  ((fun e => Report.timestamp (e_report e)) <$> heap Sample.overflowed !! 0)
  = Some 63900000000%Z /\
  ((fun e => Report.timestamp (e_report e)) <$> heap Sample.overflowed !! 1)
  = Some 63899996701%Z /\
  (e_datetime <$> heap Sample.overflowed !! 0)
  = Some (Some 63900000000001000%Z) /\
  (e_datetime <$> heap Sample.overflowed !! 1)
  = Some (Some 63899996701001000%Z) /\
  ~ exists old,
      old :: profit_history Sample.overflowed
      ≡ₚ profit_history Sample.full ++ [length (heap Sample.full)] /\
      minimum_of (heap Sample.overflowed) old
        (profit_history Sample.full ++ [length (heap Sample.full)]).
Proof.
  assert (Hfull : profit_history Sample.full ++ [length (heap Sample.full)]
                  = seq 0 1001) by (vm_compute; reflexivity).
  assert (Hover : profit_history Sample.overflowed = seq 1 1000)
    by (vm_compute; reflexivity).
  split; [vm_compute; reflexivity|]. split; [vm_compute; reflexivity|].
  split; [vm_compute; reflexivity|].
  split; [vm_compute; reflexivity|]. split; [vm_compute; reflexivity|].
  split; [rewrite Hover; intros Hin; apply elem_of_seq in Hin; lia|].
  split; [vm_compute; reflexivity|]. split; [vm_compute; reflexivity|].
  split; [vm_compute; reflexivity|]. split; [vm_compute; reflexivity|].
  rewrite Hfull, Hover. intros (old & Hperm & Hmin).
  assert (Hold : old = 0).
  { assert (Hin : 0 ∈ old :: seq 1 1000)
      by (rewrite Hperm; apply elem_of_seq; lia).
    apply elem_of_cons in Hin as [->|Hin]; [reflexivity|].
    apply elem_of_seq in Hin. lia. }
  subst old. unfold minimum_of in Hmin. rewrite Forall_forall in Hmin.
  assert (Hone : 1 ∈ seq 0 1001) by (apply elem_of_seq; lia).
  specialize (Hmin 1 Hone). vm_compute in Hmin. apply Hmin. reflexivity.
Qed.

(* ================================================================== *)
(** * The settings update *)
(* ================================================================== *)




Section SettingsFacts.
Context `{Builtins}.

Lemma rewrite_line_RANDS (ii usd : float) (line : string) :
  String.prefix "RANDS=" line = true ->
  rewrite_line ii usd line
  = String.append "RANDS=" (String.append (float_repr ii) newline).
Proof. unfold rewrite_line. intros ->. reflexivity. Qed.

Lemma rewrite_line_USD_PURCHASED (ii usd : float) (line : string) :
  String.prefix "RANDS=" line = false ->
  String.prefix "USD_PURCHASED=" line = true ->
  rewrite_line ii usd line
  = String.append "USD_PURCHASED=" (String.append (float_repr usd) newline).
Proof. unfold rewrite_line. intros -> ->. reflexivity. Qed.


End SettingsFacts.

(** ** The text layer *)






Section OnDisk.
Context `{Builtins}.



End OnDisk.




(* ================================================================== *)
(** * Timestamps already stored *)
(* ================================================================== *)

Lemma calculate_arb_profit_timestamp `{Builtins}
    (ii env_usd : float) (usd : option float) (valr exch : http_outcome)
    (now : datetime) (r : Report.t) :
  calculate_arb_profit ii env_usd usd valr exch now = Returned (Some r) ->
  Report.timestamp r = strftime now.
Proof.
  unfold calculate_arb_profit.
  destruct (usable (get_valr_usdc_zar_rate valr)) as [hb|]; [|discriminate].
  destruct (usable (get_exchange_rate exch)) as [mr|]; [|discriminate].
  destruct (PrimFloat.ltb 0 ii); cbn.
  - destruct (divide _ ii); [discriminate|]. cbn.
    destruct (divide hb mr); [discriminate|]. cbn. intros [= <-]. reflexivity.
  - destruct (divide hb mr); [discriminate|]. cbn. intros [= <-]. reflexivity.
Qed.

(** The check of line 704: when a stored dictionary already carries the
    second in which the calculator reads the clock, [/get_profit_data]
    changes nothing in the state, whatever the calculator returns. *)
Theorem get_profit_data_duplicate_timestamp `{Builtins}
    (param : option string) (valr exch : http_outcome) (now1 now2 : datetime)
    (st : state) :
  timestamp_present st (strftime now1) = true ->
  fst (get_profit_data param valr exch now1 now2 st) = st.
Proof.
  intros Hdup. unfold get_profit_data.
  destruct (usd_purchased_value param st) as [u|]; [|reflexivity].
  destruct (calculate_arb_profit _ _ _ _ _ _) as [|[r|]] eqn:Hcalc;
    try reflexivity.
  rewrite (calculate_arb_profit_timestamp _ _ _ _ _ _ _ Hcalc), Hdup.
  reflexivity.
Qed.

Lemma get_profit_data_duplicate_timestamp_witness :
  timestamp_present Sample.one_stored (strftime (Sample.after 500)) = true /\
  fst (@get_profit_data Sample.builtins (Some "1000"%string)
         (Some Sample.valr_body) (Some Sample.exch_body)
         (Sample.after 500) (Sample.after 501) Sample.one_stored)
  = Sample.one_stored.
Proof.
  split; [reflexivity|].
  apply (@get_profit_data_duplicate_timestamp Sample.builtins). reflexivity.
Defined.

(* ================================================================== *)
(** * What the fetchers accept *)
(* ================================================================== *)

(** [get_valr_usdc_zar_rate] returns a rate in exactly one situation: the
    request and the decoding went through, the body is a JSON object, its
    ['bidPrice'] is present and true as a condition, and [float] accepts
    it; the rate is then that conversion.  A failed request, a body that
    is not an object, a missing, null, empty or zero bid and a bid that is
    not a number all give [None]. *)
Theorem get_valr_usdc_zar_rate_Some `{Builtins}
    (response : http_outcome) (x : float) :
  get_valr_usdc_zar_rate response = Some x <->
  exists (d : list (string * pyobj)) (bid : pyobj),
    response = Some (PyDict d) /\
    dict_get d "bidPrice" = Some bid /\
    truthy bid = true /\
    py_float bid = Some x.
Proof.
  unfold get_valr_usdc_zar_rate. split.
  - destruct response as [[| | | | | |d]|]; cbn; try discriminate.
    destruct (dict_get d "bidPrice") as [bid|] eqn:Hbid; cbn; [|discriminate].
    destruct (truthy bid) eqn:Ht; [|discriminate].
    intros Hx. exists d, bid. auto.
  - intros (d & bid & -> & Hbid & Ht & Hx). cbn. rewrite Hbid. cbn.
    rewrite Ht. exact Hx.
Qed.

Lemma eq_str_true (o : pyobj) (s : string) :
  eq_str o s = true <-> o = PyStr s.
Proof.
  destruct o; cbn; try (split; [discriminate|intros [=]]).
  rewrite String.eqb_eq. split; [intros ->; reflexivity|intros [= ->]; reflexivity].
Qed.

(** [get_exchange_rate] returns a rate in exactly one situation: the body
    is a JSON object whose ['result'] is the text [success], whose
    ['conversion_rates'] has a ['USD'] item, and [1 / USD] can be formed;
    the rate is that quotient.  Every other answer gives [None]. *)
Theorem get_exchange_rate_Some `{Builtins}
    (response : http_outcome) (x : float) :
  get_exchange_rate response = Some x <->
  exists (d : list (string * pyobj)) (rates usd : pyobj),
    response = Some (PyDict d) /\
    dict_get d "result" = Some (PyStr "success") /\
    dict_get d "conversion_rates" = Some rates /\
    subscript rates "USD" = Some usd /\
    one_over usd = Some x.
Proof.
  unfold get_exchange_rate. split.
  - destruct response as [[| | | | | |d]|]; cbn; try discriminate.
    destruct (dict_get d "result") as [res|] eqn:Hres; cbn; [|discriminate].
    destruct (eq_str res "success") eqn:Heq; [|discriminate].
    apply eq_str_true in Heq as ->.
    destruct (dict_get d "conversion_rates") as [rates|] eqn:Hrates; cbn;
      [|discriminate].
    destruct (subscript rates "USD") as [usd|] eqn:Husd; cbn; [|discriminate].
    intros Hx. exists d, rates, usd. auto.
  - intros (d & rates & usd & -> & Hres & Hrates & Husd & Hx). cbn.
    rewrite Hres. cbn. rewrite Hrates. cbn.
    rewrite Husd. exact Hx.
Qed.

(** When the rate table gives the dollar as a float [u], the reference
    rate is [1 / u], except that a table whose dollar rate is zero makes
    the division raise, which the fetcher turns into [None]. *)
Theorem get_exchange_rate_float_usd `{Builtins}
    (d rates : list (string * pyobj)) (u : float) :
  dict_get d "result" = Some (PyStr "success") ->
  dict_get d "conversion_rates" = Some (PyDict rates) ->
  dict_get rates "USD" = Some (PyFloat u) ->
  get_exchange_rate (Some (PyDict d))
  = if PrimFloat.eqb u 0 then None else Some (1 / u)%float.
Proof.
  intros Hres Hrates Husd. unfold get_exchange_rate. cbn.
  rewrite Hres. cbn. rewrite Hrates. cbn. rewrite Husd. cbn.
  unfold float_truediv. destruct (PrimFloat.eqb u 0); reflexivity.
Qed.

Lemma get_exchange_rate_float_usd_witness :
  @get_exchange_rate Sample.builtins (Some Sample.exch_body) = Some 18.4%float /\
  @get_exchange_rate Sample.builtins
    (Some (PyDict [("result"%string, PyStr "success");
                   ("conversion_rates"%string,
                    PyDict [("USD"%string, PyFloat 0)])]))
  = None.
Proof.
  split.
  - exact (@get_exchange_rate_float_usd Sample.builtins
             [("result"%string, PyStr "success");
              ("conversion_rates"%string,
               PyDict [("USD"%string, PyFloat 0.05434782608695653)])]
             [("USD"%string, PyFloat 0.05434782608695653)]
             0.05434782608695653%float eq_refl eq_refl eq_refl).
  - exact (@get_exchange_rate_float_usd Sample.builtins
             [("result"%string, PyStr "success");
              ("conversion_rates"%string, PyDict [("USD"%string, PyFloat 0)])]
             [("USD"%string, PyFloat 0)] 0%float eq_refl eq_refl eq_refl).
Defined.

(* ================================================================== *)
(** * When the calculator reports, and what the report holds *)
(* ================================================================== *)

Section ReportFacts.
Context `{Builtins}.
Open Scope float_scope.

Lemma float_truthy_nonzero (x : float) :
  float_truthy x = true <-> PrimFloat.eqb x 0 = false.
Proof. unfold float_truthy. destruct (PrimFloat.eqb x 0); cbn; split; congruence. Qed.

(** [max(a, 10)] is never below 10, whatever [a] is (a NaN included). *)
Lemma py_max_floor (a : float) : PrimFloat.ltb (py_max a 10) 10 = false.
Proof.
  unfold py_max. destruct (PrimFloat.ltb a 10) eqn:Ha; [reflexivity|exact Ha].
Qed.

(** The report, when there is one. *)
Lemma calculate_arb_profit_report
    (ii env_usd : float) (usd : option float) (valr exch : http_outcome)
    (now : datetime) (r : Report.t) :
  calculate_arb_profit ii env_usd usd valr exch now = Returned (Some r) ->
  exists hb mr : float,
    usable (get_valr_usdc_zar_rate valr) = Some hb /\
    usable (get_exchange_rate exch) = Some mr /\
    r = {| Report.timestamp := strftime now;
           Report.valr_rate := hb;
           Report.market_rate := mr;
           Report.spread := (hb / mr - 1) * 100;
           Report.initial_zar := ii;
           Report.usd_purchased := default env_usd usd;
           Report.wire_fee := wire_transfer_fee (default env_usd usd);
           Report.final_zar := final_zar (default env_usd usd) hb;
           Report.profit_zar := final_zar (default env_usd usd) hb - ii;
           Report.profit_percent :=
             if 0 <? ii
             then (final_zar (default env_usd usd) hb - ii) / ii * 100
             else 0 |}.
Proof.
  unfold calculate_arb_profit.
  destruct (usable (get_valr_usdc_zar_rate valr)) as [hb|] eqn:Hhb; [|discriminate].
  destruct (usable (get_exchange_rate exch)) as [mr|] eqn:Hmr; [|discriminate].
  pose proof (proj1 (usable_Some _ _) Hmr) as [_ Hmt].
  intros Hr. exists hb, mr. split; [reflexivity|]. split; [reflexivity|].
  destruct (0 <? ii) eqn:Hii; cbn in Hr.
  - rewrite (divide_truthy _ ii (positive_truthy _ Hii)) in Hr. cbn in Hr.
    rewrite (divide_truthy hb mr Hmt) in Hr. cbn in Hr.
    injection Hr as <-. reflexivity.
  - rewrite (divide_truthy hb mr Hmt) in Hr. cbn in Hr.
    injection Hr as <-. reflexivity.
Qed.
End ReportFacts.

(** The calculator never raises, and it returns a report exactly when
    both fetchers returned a rate that is not zero.  Nothing else is asked
    of the rates: a negative one, an infinite one or a NaN passes. *)
Theorem calculate_arb_profit_report_iff `{Builtins}
    (initial_investment env_usd : float) (usd : option float)
    (valr exch : http_outcome) (now : datetime) :
  calculate_arb_profit initial_investment env_usd usd valr exch now <> Raised /\
  ((exists r : Report.t,
      calculate_arb_profit initial_investment env_usd usd valr exch now
      = Returned (Some r)) <->
   (exists v m : float,
      get_valr_usdc_zar_rate valr = Some v /\
      get_exchange_rate exch = Some m /\
      PrimFloat.eqb v 0 = false /\
      PrimFloat.eqb m 0 = false)).
Proof.
  split; [|split].
  - destruct (calculate_arb_profit_returns initial_investment env_usd usd valr exch now)
      as [o ->]. discriminate.
  - intros (r & Hr).
    apply calculate_arb_profit_report in Hr as (hb & mr & Hhb & Hmr & _).
    apply usable_Some in Hhb as [Hhb Hhbt]. apply usable_Some in Hmr as [Hmr Hmrt].
    exists hb, mr. rewrite <- !float_truthy_nonzero. auto.
  - intros (v & m & Hv & Hm & Hvz & Hmz).
    apply float_truthy_nonzero in Hvz, Hmz.
    unfold calculate_arb_profit. rewrite Hv, Hm. cbn. rewrite Hvz, Hmz.
    rewrite (divide_truthy v m Hmz).
    destruct (PrimFloat.ltb 0 initial_investment) eqn:Hii; cbn.
    + rewrite (divide_truthy _ initial_investment (positive_truthy _ Hii)). cbn.
      eexists. reflexivity.
    + eexists. reflexivity.
Qed.

(** No report carries a wire fee below 10, whatever amount of dollars the
    calculation was asked for (a negative amount, an infinite one or a NaN
    included). *)
Theorem report_wire_fee_floor `{Builtins}
    (initial_investment env_usd : float) (usd : option float)
    (valr exch : http_outcome) (now : datetime) (r : Report.t) :
  calculate_arb_profit initial_investment env_usd usd valr exch now
  = Returned (Some r) ->
  PrimFloat.ltb (Report.wire_fee r) 10 = false.
Proof.
  intros Hr. apply calculate_arb_profit_report in Hr as (hb & mr & _ & _ & ->).
  cbn. apply py_max_floor.
Qed.

Lemma report_wire_fee_floor_witness :
  exists r : Report.t,
    @calculate_arb_profit Sample.builtins 18000 1000 (Some (-5)%float)
      (Some Sample.valr_body) (Some Sample.exch_body) Sample.t0
    = Returned (Some r) /\
    Report.wire_fee r = 10%float /\
    PrimFloat.ltb (Report.wire_fee r) 10 = false.
Proof.
  destruct (@calculate_arb_profit Sample.builtins 18000 1000 (Some (-5)%float)
              (Some Sample.valr_body) (Some Sample.exch_body) Sample.t0)
    as [|[r|]] eqn:Hcalc; [discriminate Hcalc| |discriminate Hcalc].
  exists r. split; [reflexivity|].
  split; [|exact (@report_wire_fee_floor Sample.builtins _ _ _ _ _ _ _ Hcalc)].
  vm_compute in Hcalc. injection Hcalc as <-. reflexivity.
Defined.

(** With a positive initial investment the division is made: the
    report's profit percentage is its profit divided by the investment,
    times 100. *)
Theorem profit_percent_positive_investment `{Builtins}
    (initial_investment env_usd : float) (usd : option float)
    (valr exch : http_outcome) (now : datetime) (r : Report.t) :
  PrimFloat.ltb 0 initial_investment = true ->
  calculate_arb_profit initial_investment env_usd usd valr exch now
  = Returned (Some r) ->
  Report.profit_percent r
  = (Report.profit_zar r / initial_investment * 100)%float.
Proof.
  intros Hpos Hr.
  apply calculate_arb_profit_report in Hr as (hb & mr & _ & _ & ->).
  cbn. rewrite Hpos. reflexivity.
Qed.

Lemma profit_percent_positive_investment_witness :
  PrimFloat.ltb 0 18000 = true /\
  exists r : Report.t,
    @calculate_arb_profit Sample.builtins 18000 1000 (Some 1000%float)
      (Some Sample.valr_body) (Some Sample.exch_body) Sample.t0
    = Returned (Some r) /\
    Report.profit_zar r = 285.9900000000016%float /\
    Report.profit_percent r = (Report.profit_zar r / 18000 * 100)%float.
Proof.
  split; [reflexivity|].
  destruct (@calculate_arb_profit Sample.builtins 18000 1000 (Some 1000%float)
              (Some Sample.valr_body) (Some Sample.exch_body) Sample.t0)
    as [|[r|]] eqn:Hcalc; [discriminate Hcalc| |discriminate Hcalc].
  exists r. split; [reflexivity|].
  split;
    [|exact (@profit_percent_positive_investment Sample.builtins 18000 1000
               (Some 1000%float) (Some Sample.valr_body) (Some Sample.exch_body)
               Sample.t0 r eq_refl Hcalc)].
  vm_compute in Hcalc. injection Hcalc as <-. reflexivity.
Defined.

(** A report records what the calculation was made from: the second of
    the clock reading, the initial investment, the amount of dollars
    (the one passed, or the environment's when none was), and the two
    rates exactly as the fetchers returned them. *)
Theorem report_records_inputs `{Builtins}
    (initial_investment env_usd : float) (usd : option float)
    (valr exch : http_outcome) (now : datetime) (r : Report.t) :
  calculate_arb_profit initial_investment env_usd usd valr exch now
  = Returned (Some r) ->
  Report.timestamp r = strftime now /\
  Report.initial_zar r = initial_investment /\
  Report.usd_purchased r = default env_usd usd /\
  get_valr_usdc_zar_rate valr = Some (Report.valr_rate r) /\
  get_exchange_rate exch = Some (Report.market_rate r).
Proof.
  intros Hr. apply calculate_arb_profit_report in Hr as (hb & mr & Hhb & Hmr & ->).
  apply usable_Some in Hhb as [Hhb _]. apply usable_Some in Hmr as [Hmr _].
  cbn. auto.
Qed.

Lemma report_records_inputs_witness :
  exists r : Report.t,
    @calculate_arb_profit Sample.builtins 18000 1000 None
      (Some Sample.valr_body) (Some Sample.exch_body) (Sample.after 1500)
    = Returned (Some r) /\
    Report.timestamp r = 63900000001%Z /\
    Report.initial_zar r = 18000%float /\
    Report.usd_purchased r = 1000%float /\
    @get_valr_usdc_zar_rate Sample.builtins (Some Sample.valr_body)
    = Some (Report.valr_rate r) /\
    @get_exchange_rate Sample.builtins (Some Sample.exch_body)
    = Some (Report.market_rate r).
Proof.
  destruct (@calculate_arb_profit Sample.builtins 18000 1000 None
              (Some Sample.valr_body) (Some Sample.exch_body) (Sample.after 1500))
    as [|[r|]] eqn:Hcalc; [discriminate Hcalc| |discriminate Hcalc].
  exists r. split; [reflexivity|].
  exact (@report_records_inputs Sample.builtins _ _ _ _ _ _ _ Hcalc).
Defined.

(* ================================================================== *)
(** * The dictionaries of the history *)
(* ================================================================== *)

Lemma del_all_length (ids : list nat) (h : list entry) :
  length (del_all h ids) = length h.
Proof.
  revert h. induction ids as [|a ids IH]; intros h; cbn; [reflexivity|].
  unfold del_all in IH. rewrite IH. apply length_alter.
Qed.

(** What [/get_profit_history] does to the dictionary at an address. *)
Lemma get_profit_history_lookup (st : state) (a : nat) :
  heap (fst (get_profit_history st)) !! a
  = if decide (a ∈ profit_history st)
    then del_datetime <$> heap st !! a
    else heap st !! a.
Proof.
  unfold get_profit_history. cbn. rewrite del_all_lookup.
  destruct (decide (a ∈ sort_by _ _)) as [Hin|Hn];
    destruct (decide (a ∈ profit_history st)) as [Hin'|Hn']; try reflexivity.
  - exfalso. apply Hn'.
    rewrite <- (sort_by_Permutation (key_at (heap st))). exact Hin.
  - exfalso. apply Hn. rewrite sort_by_Permutation. exact Hin'.
Qed.

Lemma sublist_Forall {A : Type} (P : A -> Prop) (l1 l2 : list A) :
  l1 `sublist_of` l2 -> Forall P l2 -> Forall P l1.
Proof.
  induction 1 as [|x l1 l2 Hs IH|x l1 l2 Hs IH]; intros HF.
  - constructor.
  - inversion HF; subst. constructor; auto.
  - inversion HF; subst. auto.
Qed.


Lemma tail_sublist {A : Type} (l : list A) : tail l `sublist_of` l.
Proof. destruct l; cbn; [constructor|]. apply sublist_cons. reflexivity. Qed.

(** Storing one dictionary and keeping some of the addresses keeps the
    list well formed. *)
Lemma well_formed_store (st st' : state) (e : entry) (l : list nat) :
  well_formed st ->
  heap st' = heap st ++ [e] ->
  profit_history st' `sublist_of` l ->
  l ≡ₚ profit_history st ++ [length (heap st)] ->
  well_formed st'.
Proof.
  intros [Hv Hn] Hh Hsub Hperm. unfold well_formed. rewrite Hh, length_app. cbn.
  rewrite Forall_forall in Hv.
  assert (Hv' : Forall (fun a => a < length (heap st) + 1) l).
  { rewrite Hperm. apply Forall_forall. intros a Ha.
    apply elem_of_app in Ha as [Ha|Ha]; [specialize (Hv _ Ha); lia|].
    apply list_elem_of_singleton in Ha. lia. }
  assert (Hn' : NoDup l).
  { rewrite Hperm. apply NoDup_app. split; [exact Hn|]. split.
    - intros a Ha Hin. apply list_elem_of_singleton in Hin. subst a.
      specialize (Hv _ Ha). lia.
    - apply NoDup_singleton. }
  split; [eapply sublist_Forall; eassumption|eapply sublist_NoDup; eassumption].
Qed.

Section Stored.
Context `{Builtins}.

Lemma step_well_formed (st : state) (ev : event) :
  well_formed st -> well_formed (step st ev).
Proof.
  intros Hwf. destruct ev as [valr exch now1 now2|param valr exch now1 now2| |data];
    cbn [step].
  - destruct (update_profit_history_cases valr exch now1 now2 st)
      as [->|(r & Hh & Hp)]; [exact Hwf|].
    apply (well_formed_store st _ _ (profit_history st ++ [length (heap st)])
             Hwf Hh); [|reflexivity].
    rewrite Hp. destruct (1000 <? _); [apply sublist_drop|reflexivity].
  - destruct (get_profit_data_cases param valr exch now1 now2 st)
      as [->|(r & Hh & Hp)]; [exact Hwf|].
    destruct (1000 <? _).
    + apply (well_formed_store st _ _
               (sort_by (key_at (heap st ++ [mk_entry r (Some now2)]))
                  (profit_history st ++ [length (heap st)])) Hwf Hh).
      * rewrite Hp. apply tail_sublist.
      * apply sort_by_Permutation.
    + apply (well_formed_store st _ _ (profit_history st ++ [length (heap st)])
               Hwf Hh); [|reflexivity].
      rewrite Hp. reflexivity.
  - destruct Hwf as [Hv Hn]. split; [|exact Hn].
    unfold get_profit_history. cbn. rewrite del_all_length. exact Hv.
  - destruct (update_settings_history data st) as [Hp Hh].
    unfold well_formed. rewrite Hp, Hh. exact Hwf.
Qed.

Lemma run_well_formed (evs : list event) (st : state) :
  well_formed st -> well_formed (run st evs).
Proof.
  revert st. induction evs as [|ev evs IH]; intros st Hwf; cbn; [exact Hwf|].
  apply IH, step_well_formed, Hwf.
Qed.

(** One event leaves every stored dictionary in place with its report;
    at most its ['datetime'] key goes. *)
Lemma step_keeps_reports (st : state) (ev : event) (a : nat) (e : entry) :
  heap st !! a = Some e ->
  exists e' : entry,
    heap (step st ev) !! a = Some e' /\
    e_report e' = e_report e /\
    (e_datetime e' = e_datetime e \/ e_datetime e' = None).
Proof.
  intros He. destruct ev as [valr exch now1 now2|param valr exch now1 now2| |data];
    cbn [step].
  - destruct (update_profit_history_cases valr exch now1 now2 st)
      as [->|(r & -> & _)]; [exists e; auto|].
    rewrite lookup_app_l by (eapply lookup_lt_Some; exact He). exists e. auto.
  - destruct (get_profit_data_cases param valr exch now1 now2 st)
      as [->|(r & -> & _)]; [exists e; auto|].
    rewrite lookup_app_l by (eapply lookup_lt_Some; exact He). exists e. auto.
  - rewrite get_profit_history_lookup, He.
    destruct (decide _); cbn; eexists; (split; [reflexivity|]); cbn; auto.
  - rewrite (proj2 (update_settings_history data st)). exists e. auto.
Qed.
End Stored.

(** From the start of the process on, whatever happens, every address in
    [profit_history] names a stored dictionary and no dictionary is listed
    twice: each list position has a dictionary of its own. *)
Theorem reachable_well_formed `{Builtins}
    (rands usd : float) (file : option (list string)) (evs : list event) :
  well_formed (run (initial_state rands usd file) evs).
Proof.
  apply run_well_formed. split; cbn; constructor.
Qed.

(** Nothing that happens changes the report a stored dictionary holds:
    after any run of events the dictionary is still there with the same
    ten values, and its ['datetime'] key is as it was or has been
    deleted. *)
Theorem stored_reports_never_change `{Builtins}
    (evs : list event) (st : state) (a : nat) (e : entry) :
  heap st !! a = Some e ->
  exists e' : entry,
    heap (run st evs) !! a = Some e' /\
    e_report e' = e_report e /\
    (e_datetime e' = e_datetime e \/ e_datetime e' = None).
Proof.
  revert st e. induction evs as [|ev evs IH]; intros st e He; cbn.
  - exists e. auto.
  - destruct (step_keeps_reports st ev a e He) as (e1 & H1 & Hr1 & Hd1).
    destruct (IH _ _ H1) as (e2 & H2 & Hr2 & Hd2).
    exists e2. split; [exact H2|]. split; [congruence|].
    destruct Hd2 as [Hd2|Hd2]; [|right; exact Hd2].
    destruct Hd1 as [Hd1|Hd1]; [left|right]; congruence.
Qed.

Lemma stored_reports_never_change_witness :
  exists e e' : entry,
    heap Sample.one_stored !! 0 = Some e /\
    heap (@run Sample.builtins Sample.one_stored
            [ProfitHistoryRequest; Sample.poll_at 400000]) !! 0 = Some e' /\
    e_report e' = e_report e /\
    e_datetime e = Some (Sample.after 1) /\
    e_datetime e' = None.
Proof.
  destruct (heap Sample.one_stored !! 0) as [e|] eqn:He;
    [|vm_compute in He; discriminate He].
  destruct (@stored_reports_never_change Sample.builtins
              [ProfitHistoryRequest; Sample.poll_at 400000]
              Sample.one_stored 0 e He) as (e' & He' & Hr & _).
  exists e, e'. split; [reflexivity|]. split; [exact He'|]. split; [exact Hr|].
  split.
  - vm_compute in He. injection He as <-. reflexivity.
  - vm_compute in He'. injection He' as <-. reflexivity.
Defined.

(* ================================================================== *)
(** * What is stored, and where in the list *)
(* ================================================================== *)

Lemma entries_append_entry (st : state) (e : entry) :
  Forall (fun a => a < length (heap st)) (profit_history st) ->
  entries (append_entry st e) = entries st ++ [e].
Proof.
  intros Hv. unfold entries, append_entry. cbn [heap profit_history set_history].
  rewrite omap_app. f_equal.
  - apply omap_ext_in. intros a Ha. rewrite Forall_forall in Hv.
    apply lookup_app_l, Hv, Ha.
  - cbn. rewrite lookup_app_r by lia. rewrite Nat.sub_diag. reflexivity.
Qed.

Lemma omap_lookup_length (h : list entry) (l : list nat) :
  Forall (fun a => a < length h) l ->
  length (omap (fun a => h !! a) l) = length l.
Proof.
  induction 1 as [|a l Ha _ IH]; cbn; [reflexivity|].
  destruct (lookup_lt_is_Some_2 h a Ha) as [e ->]. cbn. rewrite IH. reflexivity.
Qed.

Lemma omap_lookup_drop (h : list entry) (k : nat) (l : list nat) :
  Forall (fun a => a < length h) l ->
  omap (fun a => h !! a) (drop k l) = drop k (omap (fun a => h !! a) l).
Proof.
  intros Hv. revert k. induction Hv as [|a l Ha _ IH]; intros k.
  - destruct k; reflexivity.
  - destruct k; [reflexivity|]. cbn.
    destruct (lookup_lt_is_Some_2 h a Ha) as [e ->]. cbn. apply IH.
Qed.




Section Requests.
Context `{Builtins}.

(** When the handler stores a dictionary, its timestamp was not there. *)
Lemma get_profit_data_fresh
    (param : option string) (valr exch : http_outcome) (now1 now2 : datetime)
    (st : state) :
  fst (get_profit_data param valr exch now1 now2 st) = st \/
  exists r : Report.t,
    timestamp_present st (Report.timestamp r) = false /\
    heap (fst (get_profit_data param valr exch now1 now2 st))
    = heap st ++ [mk_entry r (Some now2)] /\
    profit_history (fst (get_profit_data param valr exch now1 now2 st))
    = (if 1000 <? length (profit_history st ++ [length (heap st)])
       then tail (sort_by (key_at (heap st ++ [mk_entry r (Some now2)]))
                    (profit_history st ++ [length (heap st)]))
       else profit_history st ++ [length (heap st)]).
Proof.
  unfold get_profit_data.
  destruct (usd_purchased_value param st) as [u|]; [|left; reflexivity].
  destruct (calculate_arb_profit _ _ _ _ _ _) as [|[r|]]; [left| |left]; try reflexivity.
  cbn [fst]. destruct (timestamp_present st (Report.timestamp r)) eqn:Hts;
    [left; reflexivity|].
  right. exists r. split; [exact Hts|]. unfold append_entry.
  cbn [heap profit_history set_history].
  destruct (1000 <? length (profit_history st ++ [length (heap st)]));
    split; reflexivity.
Qed.


End Requests.



(** A turn of the polling loop that gets a report stores it at the end
    of the history with the clock reading of line 105, keeps the last
    thousand of the list (so that, at a thousand entries, the one at the
    front goes, whatever its age), and records the report's timestamp as
    the last refresh time. *)
Theorem update_profit_history_appends `{Builtins}
    (valr exch : http_outcome) (now1 now2 : datetime) (st : state)
    (r : Report.t) :
  well_formed st ->
  calculate_arb_profit (initial_investment st) (environ_usd_purchased st)
    None valr exch now1 = Returned (Some r) ->
  let st' := update_profit_history valr exch now1 now2 st in
  entries st'
  = drop (length (entries st) + 1 - 1000)
      (entries st ++ [mk_entry r (Some now2)]) /\
  last_refresh_time st' = Some (strftime now1).
Proof.
  intros Hwf Hcalc st'. subst st'. unfold update_profit_history. rewrite Hcalc.
  set (e := {| e_report := r; e_datetime := Some now2 |}).
  set (st1 := append_entry st e).
  assert (Hwf1 : well_formed st1).
  { apply (well_formed_store st st1 e (profit_history st ++ [length (heap st)]) Hwf);
      reflexivity. }
  assert (Hent1 : entries st1 = entries st ++ [e])
    by (apply entries_append_entry, Hwf).
  assert (Hlen : length (profit_history st1) = length (entries st) + 1).
  { unfold st1, append_entry. cbn [profit_history set_history].
    rewrite length_app. cbn [length]. unfold entries.
    rewrite omap_lookup_length by apply Hwf. reflexivity. }
  split.
  - transitivity (omap (fun a => heap st1 !! a)
                    (drop (length (profit_history st1) - 1000) (profit_history st1))).
    + destruct (1000 <? length (profit_history st1)) eqn:Hlt; [reflexivity|].
      apply Nat.ltb_ge in Hlt.
      replace (length (profit_history st1) - 1000) with 0 by lia. reflexivity.
    + rewrite omap_lookup_drop by apply Hwf1. fold (entries st1).
      rewrite Hent1, Hlen. reflexivity.
  - rewrite <- (calculate_arb_profit_timestamp _ _ _ _ _ _ _ Hcalc).
    destruct (1000 <? length (profit_history st1)); reflexivity.
Qed.

Lemma update_profit_history_appends_witness :
  let st' := @update_profit_history Sample.builtins (Some Sample.valr_body)
               (Some Sample.exch_body) (Sample.after 400000)
               (Sample.after 400001) Sample.one_stored in
  well_formed Sample.one_stored /\
  exists r : Report.t,
    @calculate_arb_profit Sample.builtins (initial_investment Sample.one_stored)
      (environ_usd_purchased Sample.one_stored) None (Some Sample.valr_body)
      (Some Sample.exch_body) (Sample.after 400000) = Returned (Some r) /\
    entries st'
    = entries Sample.one_stored ++ [mk_entry r (Some (Sample.after 400001))] /\
    last_refresh_time st' = Some 63900000400%Z.
Proof.
  intros st'.
  assert (Hwf : well_formed Sample.one_stored).
  { apply (@run_well_formed Sample.builtins [Sample.request_at 0] Sample.start).
    split; constructor. }
  split; [exact Hwf|].
  destruct (@calculate_arb_profit Sample.builtins
              (initial_investment Sample.one_stored)
              (environ_usd_purchased Sample.one_stored) None
              (Some Sample.valr_body) (Some Sample.exch_body)
              (Sample.after 400000))
    as [|[r|]] eqn:Hcalc; [discriminate Hcalc| |discriminate Hcalc].
  exists r. split; [reflexivity|].
  exact (@update_profit_history_appends Sample.builtins (Some Sample.valr_body)
           (Some Sample.exch_body) (Sample.after 400000) (Sample.after 400001)
           Sample.one_stored r Hwf Hcalc).
Defined.

(** A request for the profit data whose calculation succeeds in a second
    no stored dictionary carries yet stores a copy of the report at the
    end of the history (below a thousand entries), answers with the
    report and status 200, and leaves the last refresh time as it was:
    only the polling loop records one. *)
Theorem get_profit_data_stores_new_second `{Builtins}
    (param : option string) (valr exch : http_outcome) (now1 now2 : datetime)
    (st : state) (u : float) (r : Report.t) :
  well_formed st ->
  usd_purchased_value param st = Some u ->
  calculate_arb_profit (initial_investment st) (environ_usd_purchased st)
    (Some u) valr exch now1 = Returned (Some r) ->
  timestamp_present st (strftime now1) = false ->
  length (profit_history st) < 1000 ->
  let res := get_profit_data param valr exch now1 now2 st in
  entries (fst res) = entries st ++ [mk_entry r (Some now2)] /\
  snd res = {| resp_body := JsonReport r; resp_status := 200 |} /\
  last_refresh_time (fst res) = last_refresh_time st.
Proof.
  intros Hwf Hu Hcalc Hts Hlen res. subst res.
  unfold get_profit_data. rewrite Hu, Hcalc.
  rewrite (calculate_arb_profit_timestamp _ _ _ _ _ _ _ Hcalc), Hts.
  assert (Hnot : (1000 <?
                  length (profit_history
                            (append_entry st (mk_entry r (Some now2))))) = false).
  { apply Nat.ltb_ge. unfold append_entry. cbn [profit_history set_history].
    rewrite length_app. cbn [length]. lia. }
  rewrite Hnot. cbn [fst snd].
  split; [apply entries_append_entry, Hwf|]. split; reflexivity.
Qed.

Lemma get_profit_data_stores_new_second_witness :
  let res := @get_profit_data Sample.builtins None (Some Sample.valr_body)
               (Some Sample.exch_body) (Sample.after 2000) (Sample.after 2001)
               Sample.one_stored in
  well_formed Sample.one_stored /\
  timestamp_present Sample.one_stored (strftime (Sample.after 2000)) = false /\
  length (profit_history Sample.one_stored) < 1000 /\
  exists r : Report.t,
    entries (fst res)
    = entries Sample.one_stored ++ [mk_entry r (Some (Sample.after 2001))] /\
    snd res = {| resp_body := JsonReport r; resp_status := 200 |} /\
    last_refresh_time (fst res) = None.
Proof.
  intros res.
  assert (Hwf : well_formed Sample.one_stored).
  { apply (@run_well_formed Sample.builtins [Sample.request_at 0] Sample.start).
    split; constructor. }
  assert (Hlen : length (profit_history Sample.one_stored) < 1000)
    by (vm_compute; lia).
  split; [exact Hwf|]. split; [reflexivity|]. split; [exact Hlen|].
  destruct (@calculate_arb_profit Sample.builtins
              (initial_investment Sample.one_stored)
              (environ_usd_purchased Sample.one_stored) (Some 1000%float)
              (Some Sample.valr_body) (Some Sample.exch_body)
              (Sample.after 2000))
    as [|[r|]] eqn:Hcalc; [discriminate Hcalc| |discriminate Hcalc].
  exists r.
  exact (@get_profit_data_stores_new_second Sample.builtins None
           (Some Sample.valr_body) (Some Sample.exch_body) (Sample.after 2000)
           (Sample.after 2001) Sample.one_stored 1000%float r Hwf eq_refl Hcalc
           eq_refl Hlen).
Defined.

(* ================================================================== *)
(** * What each event leaves alone *)
(* ================================================================== *)

Section Frame.
Context `{Builtins}.

(** No event writes the process environment; only a settings request
    touches the settings and the file; only a turn of the polling loop
    sets the last refresh time. *)
Lemma step_frame (st : state) (ev : event) :
  environ_usd_purchased (step st ev) = environ_usd_purchased st /\
  (is_settings_request ev = false ->
   initial_investment (step st ev) = initial_investment st /\
   usd_purchased (step st ev) = usd_purchased st /\
   dotenv (step st ev) = dotenv st) /\
  (is_poll ev = false ->
   last_refresh_time (step st ev) = last_refresh_time st).
Proof.
  destruct ev as [valr exch now1 now2|param valr exch now1 now2| |data];
    cbn [step is_settings_request is_poll].
  - unfold update_profit_history.
    destruct (calculate_arb_profit _ _ _ _ _ _) as [|[r|]];
      try (split; [reflexivity|split; [auto|discriminate]]).
    destruct (1000 <? _); (split; [reflexivity|split; [auto|discriminate]]).
  - unfold get_profit_data.
    destruct (usd_purchased_value param st) as [u|]; [|cbn; auto].
    destruct (calculate_arb_profit _ _ _ _ _ _) as [|[r|]];
      [cbn; auto| |cbn; auto].
    cbn [fst]. destruct (timestamp_present st (Report.timestamp r)); [auto|].
    destruct (1000 <? _); auto.
  - cbn. auto.
  - unfold update_settings.
    destruct (read_setting data "initial_investment" _);
      [|split; [reflexivity|split; [discriminate|reflexivity]]].
    cbn. destruct (read_setting data "usd_purchased" _);
      [|split; [reflexivity|split; [discriminate|reflexivity]]].
    cbn. destruct (dotenv st); (split; [reflexivity|split; [discriminate|reflexivity]]).
Qed.

Lemma run_environ (evs : list event) (st : state) :
  environ_usd_purchased (run st evs) = environ_usd_purchased st.
Proof.
  revert st. induction evs as [|ev evs IH]; intros st; [reflexivity|].
  change (run st (ev :: evs)) with (run (step st ev) evs).
  rewrite IH. apply step_frame.
Qed.
End Frame.

(** The polling loop takes the amount of dollars from the process
    environment, which nothing in the program writes: after any run of
    events, settings updates included, the report a turn of the loop
    stores carries the amount the environment had at start-up, together
    with the initial investment of the moment. *)
Theorem poll_reports_environment_usd `{Builtins}
    (evs : list event) (valr exch : http_outcome) (now1 now2 : datetime)
    (st : state) (e : entry) :
  let st1 := run st evs in
  heap (update_profit_history valr exch now1 now2 st1) = heap st1 ++ [e] ->
  Report.usd_purchased (e_report e) = environ_usd_purchased st /\
  Report.initial_zar (e_report e) = initial_investment st1.
Proof.
  intros st1. unfold update_profit_history.
  destruct (calculate_arb_profit _ _ _ _ _ _) as [|[r|]] eqn:Hcalc.
  - intros Hh. apply (f_equal length) in Hh. rewrite length_app in Hh.
    cbn in Hh. lia.
  - intros Hh.
    assert (He : heap st1 ++ [mk_entry r (Some now2)] = heap st1 ++ [e]).
    { rewrite <- Hh. destruct (1000 <? _); reflexivity. }
    apply app_inj_tail in He as [_ <-].
    apply calculate_arb_profit_report in Hcalc as (hb & mr & _ & _ & ->).
    cbn. split; [apply run_environ|reflexivity].
  - intros Hh. apply (f_equal length) in Hh. rewrite length_app in Hh.
    cbn in Hh. lia.
Qed.

Lemma poll_reports_environment_usd_witness :
  let st1 := @run Sample.builtins Sample.configured
               [SettingsRequest Sample.only_usd_purchased] in
  let st2 := @update_profit_history Sample.builtins (Some Sample.valr_body)
               (Some Sample.exch_body) Sample.t0 (Sample.after 1) st1 in
  usd_purchased st1 = 20000%float /\
  exists e : entry,
    heap st2 = heap st1 ++ [e] /\
    Report.usd_purchased (e_report e) = 1000%float /\
    Report.initial_zar (e_report e) = 18000%float.
Proof.
  intros st1 st2. split; [reflexivity|].
  assert (Hh : exists e : entry, heap st2 = heap st1 ++ [e])
    by (vm_compute; eexists; reflexivity).
  destruct Hh as [e Hh]. exists e. split; [exact Hh|].
  exact (@poll_reports_environment_usd Sample.builtins
           [SettingsRequest Sample.only_usd_purchased] (Some Sample.valr_body)
           (Some Sample.exch_body) Sample.t0 (Sample.after 1) Sample.configured
           e Hh).
Defined.

(** The settings and the [.env] file change only through
    [/update_settings]: a run with no settings request leaves the initial
    investment, the amount of dollars and the file as they were. *)
Theorem settings_change_only_by_update_settings `{Builtins}
    (evs : list event) (st : state) :
  forallb (fun ev => negb (is_settings_request ev)) evs = true ->
  initial_investment (run st evs) = initial_investment st /\
  usd_purchased (run st evs) = usd_purchased st /\
  dotenv (run st evs) = dotenv st.
Proof.
  revert st. induction evs as [|ev evs IH]; intros st Hevs; [auto|].
  cbn in Hevs. apply andb_true_iff in Hevs as [Hev Hevs].
  apply negb_true_iff in Hev.
  change (run st (ev :: evs)) with (run (step st ev) evs).
  destruct (IH (step st ev) Hevs) as (-> & -> & ->).
  exact (proj1 (proj2 (step_frame st ev)) Hev).
Qed.

Lemma settings_change_only_by_update_settings_witness :
  let evs := [Sample.poll_at 0; Sample.request_at 2000; ProfitHistoryRequest] in
  forallb (fun ev => negb (is_settings_request ev)) evs = true /\
  initial_investment (@run Sample.builtins Sample.configured evs) = 18000%float /\
  usd_purchased (@run Sample.builtins Sample.configured evs) = 1000%float /\
  dotenv (@run Sample.builtins Sample.configured evs) = Some Sample.env_file.
Proof.
  intros evs. split; [reflexivity|].
  exact (@settings_change_only_by_update_settings Sample.builtins evs
           Sample.configured eq_refl).
Defined.

(** The last refresh time changes only in the polling loop: requests,
    also those that store a newer report, leave it as it was. *)
Theorem last_refresh_time_only_by_poll `{Builtins}
    (evs : list event) (st : state) :
  forallb (fun ev => negb (is_poll ev)) evs = true ->
  last_refresh_time (run st evs) = last_refresh_time st.
Proof.
  revert st. induction evs as [|ev evs IH]; intros st Hevs; [reflexivity|].
  cbn in Hevs. apply andb_true_iff in Hevs as [Hev Hevs].
  apply negb_true_iff in Hev.
  change (run st (ev :: evs)) with (run (step st ev) evs).
  rewrite (IH (step st ev) Hevs).
  exact (proj2 (proj2 (step_frame st ev)) Hev).
Qed.

Lemma last_refresh_time_only_by_poll_witness :
  let evs := [Sample.request_at 400000; ProfitHistoryRequest;
              SettingsRequest Sample.only_initial_investment] in
  let st := @run Sample.builtins Sample.start [Sample.poll_at 0] in
  forallb (fun ev => negb (is_poll ev)) evs = true /\
  last_refresh_time st = Some 63900000000%Z /\
  timestamps (@run Sample.builtins st evs) = [63900000000%Z; 63900000400%Z] /\
  last_refresh_time (@run Sample.builtins st evs) = Some 63900000000%Z.
Proof.
  intros evs st. split; [reflexivity|]. split; [reflexivity|].
  split; [reflexivity|].
  exact (@last_refresh_time_only_by_poll Sample.builtins evs st eq_refl).
Defined.

(** A second [/get_profit_history] changes nothing any more: what the
    first one did to the stored dictionaries is all there is to do. *)
Theorem get_profit_history_idempotent (st : state) :
  fst (get_profit_history (fst (get_profit_history st)))
  = fst (get_profit_history st).
Proof.
  assert (Hheap : heap (fst (get_profit_history (fst (get_profit_history st))))
                  = heap (fst (get_profit_history st))).
  { apply list_eq. intros a. rewrite !get_profit_history_lookup.
    change (profit_history (fst (get_profit_history st)))
      with (profit_history st).
    destruct (decide _); [|reflexivity]. destruct (heap st !! a); reflexivity. }
  unfold get_profit_history in *. cbn [fst] in *. unfold set_history in *.
  cbn [heap profit_history last_refresh_time initial_investment usd_purchased
       environ_usd_purchased dotenv] in *.
  f_equal. exact Hheap.
Qed.

(* ================================================================== *)
(** * Settings updates: repetition and failure *)
(* ================================================================== *)

Section SettingsMore.
Context `{Builtins}.

Lemma prefix_RANDS_written (rest : string) :
  String.prefix "RANDS=" (String.append "RANDS=" rest) = true.
Proof. cbn. destruct rest; reflexivity. Qed.

Lemma prefix_USD_PURCHASED_written (rest : string) :
  String.prefix "USD_PURCHASED=" (String.append "USD_PURCHASED=" rest) = true.
Proof. cbn. destruct rest; reflexivity. Qed.

Lemma rewrite_line_idempotent (ii usd : float) (line : string) :
  rewrite_line ii usd (rewrite_line ii usd line) = rewrite_line ii usd line.
Proof.
  destruct (String.prefix "RANDS=" line) eqn:Hr.
  - rewrite (rewrite_line_RANDS ii usd line Hr).
    apply rewrite_line_RANDS, prefix_RANDS_written.
  - destruct (String.prefix "USD_PURCHASED=" line) eqn:Hu.
    + rewrite (rewrite_line_USD_PURCHASED ii usd line Hr Hu).
      apply rewrite_line_USD_PURCHASED;
        [reflexivity|apply prefix_USD_PURCHASED_written].
    + assert (Hid : rewrite_line ii usd line = line)
        by (unfold rewrite_line; rewrite Hr, Hu; reflexivity).
      rewrite !Hid. reflexivity.
Qed.

(** A setting that was read reads the same once it is the current one. *)
Lemma read_setting_stable (data : list (string * pyobj)) (key : string)
    (current x : float) :
  read_setting data key current = Some x -> read_setting data key x = Some x.
Proof.
  unfold read_setting. destruct (dict_mem data key); [auto|].
  intros [= ->]. reflexivity.
Qed.

(** What a line of the rewritten file looks like. *)
Lemma rewrite_line_shape (ii usd : float) (line0 line : string) :
  line = rewrite_line ii usd line0 ->
  (String.prefix "RANDS=" line = true ->
   line = String.append "RANDS=" (String.append (float_repr ii) newline)) /\
  (String.prefix "USD_PURCHASED=" line = true ->
   line = String.append "USD_PURCHASED="
            (String.append (float_repr usd) newline)).
Proof.
  intros ->. destruct (String.prefix "RANDS=" line0) eqn:Hr.
  - rewrite (rewrite_line_RANDS ii usd line0 Hr). split; [reflexivity|].
    intros Hp. cbn in Hp. discriminate Hp.
  - destruct (String.prefix "USD_PURCHASED=" line0) eqn:Hu.
    + rewrite (rewrite_line_USD_PURCHASED ii usd line0 Hr Hu).
      split; [|reflexivity]. intros Hp. cbn in Hp. discriminate Hp.
    + assert (Hid : rewrite_line ii usd line0 = line0)
        by (unfold rewrite_line; rewrite Hr, Hu; reflexivity).
      rewrite Hid. split; intros Hp; congruence.
Qed.
End SettingsMore.

(** Sending the same settings request again changes nothing and gets the
    same answer: the values read are the values now current, and a
    rewritten line is rewritten to itself. *)
Theorem update_settings_idempotent `{Builtins}
    (data : list (string * pyobj)) (st : state) :
  update_settings data (fst (update_settings data st))
  = update_settings data st.
Proof.
  destruct st as [h ph lrt ii usd env file]. unfold update_settings.
  cbn [initial_investment usd_purchased dotenv set_initial_investment
       set_usd_purchased set_dotenv heap profit_history last_refresh_time
       environ_usd_purchased].
  destruct (read_setting data "initial_investment" ii) as [x|] eqn:Hx.
  2: { cbn [fst initial_investment]. rewrite Hx. reflexivity. }
  destruct (read_setting data "usd_purchased" usd) as [y|] eqn:Hy.
  2: { cbn [fst initial_investment usd_purchased set_initial_investment].
       rewrite (read_setting_stable _ _ _ _ Hx), Hy. reflexivity. }
  destruct file as [lines|].
  2: { cbn [fst initial_investment usd_purchased dotenv set_initial_investment
            set_usd_purchased heap profit_history last_refresh_time
            environ_usd_purchased].
       rewrite (read_setting_stable _ _ _ _ Hx), (read_setting_stable _ _ _ _ Hy).
       reflexivity. }
  cbn [fst initial_investment usd_purchased dotenv set_initial_investment
       set_usd_purchased set_dotenv heap profit_history last_refresh_time
       environ_usd_purchased].
  rewrite (read_setting_stable _ _ _ _ Hx), (read_setting_stable _ _ _ _ Hy).
  f_equal. unfold set_dotenv.
  cbn [initial_investment usd_purchased dotenv heap profit_history
       last_refresh_time environ_usd_purchased].
  f_equal. f_equal. rewrite map_map. apply map_ext. intros line.
  apply rewrite_line_idempotent.
Qed.

(** After a settings update that answered success the file agrees with
    the memory: every line of it that starts with [RANDS=] is the line of
    the in-memory initial investment, and every line that starts with
    [USD_PURCHASED=] is the line of the in-memory amount of dollars. *)
Theorem update_settings_file_matches_memory `{Builtins}
    (data : list (string * pyobj)) (st : state) :
  snd (update_settings data st)
  = {| resp_body := JsonSuccess; resp_status := 200 |} ->
  let st' := fst (update_settings data st) in
  exists lines' : list string,
    dotenv st' = Some lines' /\
    forall line : string,
      line ∈ lines' ->
      (String.prefix "RANDS=" line = true ->
       line = String.append "RANDS="
                (String.append (float_repr (initial_investment st')) newline)) /\
      (String.prefix "USD_PURCHASED=" line = true ->
       line = String.append "USD_PURCHASED="
                (String.append (float_repr (usd_purchased st')) newline)).
Proof.
  unfold update_settings.
  destruct (read_setting data "initial_investment" _) as [x|]; [|discriminate].
  cbn [usd_purchased set_initial_investment].
  destruct (read_setting data "usd_purchased" _) as [y|]; [|discriminate].
  cbn [dotenv set_usd_purchased set_initial_investment].
  destruct (dotenv st) as [lines|]; [|discriminate].
  intros _. cbn.
  eexists. split; [reflexivity|].
  intros line Hin. apply list_elem_of_fmap in Hin as (line0 & Hline & _).
  exact (rewrite_line_shape x y line0 line Hline).
Qed.

Lemma update_settings_file_matches_memory_witness :
  let st' := fst (@update_settings Sample.builtins Sample.both_settings
                    Sample.configured) in
  snd (@update_settings Sample.builtins Sample.both_settings Sample.configured)
  = {| resp_body := JsonSuccess; resp_status := 200 |} /\
  initial_investment st' = 20000%float /\
  usd_purchased st' = 1000%float /\
  exists lines' : list string,
    dotenv st' = Some lines' /\
    forall line : string,
      line ∈ lines' ->
      (String.prefix "RANDS=" line = true -> line = Sample.ln "RANDS=20000.0") /\
      (String.prefix "USD_PURCHASED=" line = true ->
       line = Sample.ln "USD_PURCHASED=1000.0").
Proof.
  intros st'. split; [reflexivity|]. split; [reflexivity|].
  split; [reflexivity|].
  exact (@update_settings_file_matches_memory Sample.builtins
           Sample.both_settings Sample.configured eq_refl).
Defined.

(** Without a [.env] file the request fails with the server's error
    page, but only at line 749: the two assignments before it stay, so
    the settings in memory have changed although the answer is an
    error. *)
Theorem update_settings_missing_file `{Builtins}
    (data : list (string * pyobj)) (st : state) (x y : float) :
  dotenv st = None ->
  read_setting data "initial_investment" (initial_investment st) = Some x ->
  read_setting data "usd_purchased" (usd_purchased st) = Some y ->
  let st' := fst (update_settings data st) in
  snd (update_settings data st) = internal_server_error /\
  initial_investment st' = x /\
  usd_purchased st' = y /\
  dotenv st' = None.
Proof.
  intros Hfile Hx Hy st'. subst st'. unfold update_settings. rewrite Hx.
  cbn [usd_purchased set_initial_investment]. rewrite Hy.
  cbn [dotenv set_usd_purchased set_initial_investment]. rewrite Hfile.
  cbn. auto.
Qed.

Lemma update_settings_missing_file_witness :
  let st' := fst (@update_settings Sample.builtins Sample.both_settings
                    Sample.without_file) in
  dotenv Sample.without_file = None /\
  initial_investment Sample.without_file = 18000%float /\
  snd (@update_settings Sample.builtins Sample.both_settings Sample.without_file)
  = internal_server_error /\
  initial_investment st' = 20000%float /\
  usd_purchased st' = 1000%float /\
  dotenv st' = None.
Proof.
  intros st'. split; [reflexivity|]. split; [reflexivity|].
  exact (@update_settings_missing_file Sample.builtins Sample.both_settings
           Sample.without_file 20000%float 1000%float eq_refl eq_refl eq_refl).
Defined.

(** When the request's [usd_purchased] is not a number, [float] raises
    at line 746: the answer is the server's error page, the amount of
    dollars and the file are untouched, but the initial investment, which
    was assigned a line earlier, keeps its new value. *)
Theorem update_settings_malformed_usd_purchased `{Builtins}
    (data : list (string * pyobj)) (st : state) (x : float) (v : pyobj) :
  read_setting data "initial_investment" (initial_investment st) = Some x ->
  dict_get data "usd_purchased" = Some v ->
  py_float v = None ->
  let st' := fst (update_settings data st) in
  snd (update_settings data st) = internal_server_error /\
  initial_investment st' = x /\
  usd_purchased st' = usd_purchased st /\
  dotenv st' = dotenv st.
Proof.
  intros Hx Hv Hnum st'. subst st'.
  assert (Hy : read_setting data "usd_purchased" (usd_purchased st) = None).
  { unfold read_setting, dict_mem. rewrite Hv. cbn. exact Hnum. }
  unfold update_settings. rewrite Hx.
  cbn [usd_purchased set_initial_investment]. rewrite Hy. cbn. auto.
Qed.

Lemma update_settings_malformed_usd_purchased_witness :
  let st' := fst (@update_settings Sample.builtins
                    Sample.malformed_usd_purchased Sample.configured) in
  @py_float Sample.builtins (PyStr "abc") = None /\
  snd (@update_settings Sample.builtins Sample.malformed_usd_purchased
         Sample.configured) = internal_server_error /\
  initial_investment st' = 20000%float /\
  usd_purchased st' = 1000%float /\
  dotenv st' = Some Sample.env_file.
Proof.
  intros st'. split; [reflexivity|].
  exact (@update_settings_malformed_usd_purchased Sample.builtins
           Sample.malformed_usd_purchased Sample.configured 20000%float
           (PyStr "abc") eq_refl eq_refl eq_refl).
Defined.

(* ================================================================== *)
(** * The amount of dollars of a request *)
(* ================================================================== *)



(** A [usd_purchased] parameter that is not empty and that [float]
    rejects makes the handler raise at line 697, before anything is
    calculated: the answer is the server's error page, not the JSON error
    of line 718, and nothing is stored. *)
Theorem get_profit_data_malformed_parameter `{Builtins}
    (s : string) (valr exch : http_outcome) (now1 now2 : datetime) (st : state) :
  s <> ""%string ->
  float_of_str s = None ->
  get_profit_data (Some s) valr exch now1 now2 st = (st, internal_server_error).
Proof.
  intros Hs Hnum. unfold get_profit_data, usd_purchased_value.
  destruct (String.eqb_spec s ""); [contradiction|]. rewrite Hnum. reflexivity.
Qed.

Lemma get_profit_data_malformed_parameter_witness :
  "abc"%string <> ""%string /\
  @float_of_str Sample.builtins "abc" = None /\
  @get_profit_data Sample.builtins (Some "abc"%string) (Some Sample.valr_body)
    (Some Sample.exch_body) Sample.t0 (Sample.after 1) Sample.one_stored
  = (Sample.one_stored, internal_server_error).
Proof.
  assert (Hs : "abc"%string <> ""%string) by discriminate.
  split; [exact Hs|]. split; [reflexivity|].
  exact (@get_profit_data_malformed_parameter Sample.builtins "abc"
           (Some Sample.valr_body) (Some Sample.exch_body) Sample.t0
           (Sample.after 1) Sample.one_stored Hs eq_refl).
Defined.

(* ================================================================== *)
(** * When the history answer is in timestamp order *)
(* ================================================================== *)

Lemma sorted_by_second (es : list entry) :
  Forall in_its_second es ->
  StronglySorted (fun x y => (capture_time x <= capture_time y)%Z) es ->
  StronglySorted
    (fun x y => (Report.timestamp (e_report x) <= Report.timestamp (e_report y))%Z)
    es.
Proof.
  intros HF HS. induction HS as [|x l HS IH Hx]; [constructor|].
  apply Forall_cons in HF as [Hsec HF]. constructor; [apply IH, HF|].
  rewrite Forall_forall in *. intros y Hy.
  rewrite <- Hsec, <- (HF y Hy). unfold strftime.
  apply Z.div_le_mono; [lia|]. apply Hx, Hy.
Qed.

Lemma del_datetime_in_its_second (e : entry) : in_its_second (del_datetime e).
Proof.
  unfold in_its_second, capture_time, strptime, strftime. cbn.
  apply Z.div_mul. lia.
Qed.

Section SameSecond.
Context `{Builtins}.

Lemma step_in_its_second (st : state) (ev : event) :
  same_second ev = true ->
  Forall in_its_second (heap st) ->
  Forall in_its_second (heap (step st ev)).
Proof.
  intros Hev HF.
  destruct ev as [valr exch now1 now2|param valr exch now1 now2| |data];
    cbn [step same_second] in *.
  - apply Z.eqb_eq in Hev. unfold update_profit_history.
    destruct (calculate_arb_profit _ _ _ _ _ _) as [|[r|]] eqn:Hcalc;
      [exact HF| |exact HF].
    assert (Hh : forall st1 : state,
               heap st1 = heap st ++ [mk_entry r (Some now2)] ->
               Forall in_its_second (heap st1)).
    { intros st1 ->. apply Forall_app. split; [exact HF|].
      constructor; [|constructor]. unfold in_its_second. cbn.
      rewrite (calculate_arb_profit_timestamp _ _ _ _ _ _ _ Hcalc).
      symmetry. exact Hev. }
    apply Hh. destruct (1000 <? _); reflexivity.
  - apply Z.eqb_eq in Hev.
    destruct (get_profit_data_fresh param valr exch now1 now2 st)
      as [->|(r & _ & Hh & _)]; [exact HF|].
    rewrite Hh. apply Forall_app. split; [exact HF|].
    constructor; [|constructor]. unfold in_its_second. cbn.
    assert (Hr : Report.timestamp r = strftime now1).
    { revert Hh. unfold get_profit_data.
      destruct (usd_purchased_value param st) as [u|]; cbn [fst].
      - destruct (calculate_arb_profit _ _ _ _ _ _) as [|[r'|]] eqn:Hcalc;
          cbn [fst].
        + intros Hh. apply (f_equal length) in Hh. rewrite length_app in Hh.
          cbn in Hh. lia.
        + pose proof (calculate_arb_profit_timestamp _ _ _ _ _ _ _ Hcalc) as Hts.
          destruct (timestamp_present st (Report.timestamp r')).
          * intros Hh. apply (f_equal length) in Hh. rewrite length_app in Hh.
            cbn in Hh. lia.
          * intros Hh.
            assert (He : heap st ++ [mk_entry r' (Some now2)]
                         = heap st ++ [mk_entry r (Some now2)]).
            { rewrite <- Hh. destruct (1000 <? _); reflexivity. }
            apply app_inj_tail in He as [_ [= ->]]. exact Hts.
        + intros Hh. apply (f_equal length) in Hh. rewrite length_app in Hh.
          cbn in Hh. lia.
      - intros Hh. apply (f_equal length) in Hh. rewrite length_app in Hh.
        cbn in Hh. lia. }
    rewrite Hr. symmetry. exact Hev.
  - apply Forall_lookup. intros a e He.
    rewrite get_profit_history_lookup in He.
    destruct (decide _) as [Hin|Hn].
    + destruct (heap st !! a) as [e0|]; [|discriminate He].
      injection He as <-. apply del_datetime_in_its_second.
    + exact (proj1 (Forall_lookup _ _) HF a e He).
  - rewrite (proj2 (update_settings_history data st)). exact HF.
Qed.

Lemma run_in_its_second (evs : list event) (st : state) :
  forallb same_second evs = true ->
  Forall in_its_second (heap st) ->
  Forall in_its_second (heap (run st evs)).
Proof.
  revert st. induction evs as [|ev evs IH]; intros st Hevs HF; [exact HF|].
  cbn in Hevs. apply andb_true_iff in Hevs as [Hev Hevs].
  change (run st (ev :: evs)) with (run (step st ev) evs).
  apply IH; [exact Hevs|]. apply step_in_its_second; assumption.
Qed.
End SameSecond.

(** When the two clock readings of every calculating event fall in the
    same second, then from the start of the process on, in whatever
    order the entries came in (the wall clock may have been set back or
    forward between events), the answer of [/get_profit_history] lists
    the reports of all the dictionaries of the history, each once, in
    ascending order of their timestamps. *)
Theorem get_profit_history_ascending_timestamps `{Builtins}
    (rands usd : float) (file : option (list string)) (evs : list event) :
  forallb same_second evs = true ->
  let st := run (initial_state rands usd file) evs in
  exists es : list entry,
    es ≡ₚ entries st /\
    StronglySorted
      (fun x y =>
         (Report.timestamp (e_report x) <= Report.timestamp (e_report y))%Z) es /\
    snd (get_profit_history st)
    = {| resp_body := JsonHistory (e_report <$> es); resp_status := 200 |}.
Proof.
  intros Hevs st.
  assert (HF : Forall in_its_second (heap st))
    by (apply run_in_its_second; [exact Hevs|constructor]).
  exists (omap (fun a => heap st !! a)
            (sort_by (key_at (heap st)) (profit_history st))).
  split; [|split].
  - unfold entries. rewrite sort_by_Permutation. reflexivity.
  - apply sorted_by_second; [|apply sorted_entries, sort_by_sorted].
    apply Forall_forall. intros e He.
    apply list_elem_of_omap in He as (a & _ & Ha).
    exact (proj1 (Forall_lookup _ _) HF a e Ha).
  - apply get_profit_history_answer.
Qed.

Lemma get_profit_history_ascending_timestamps_witness :
  let evs := [Sample.request_at 5000; Sample.request_at 0; Sample.poll_at 2000] in
  let st := @run Sample.builtins (initial_state 18000 1000 (Some [])) evs in
  forallb same_second evs = true /\
  timestamps st = [63900000005%Z; 63900000000%Z; 63900000002%Z] /\
  answer_timestamps (snd (get_profit_history st))
  = [63900000000%Z; 63900000002%Z; 63900000005%Z] /\
  exists es : list entry,
    es ≡ₚ entries st /\
    StronglySorted
      (fun x y =>
         (Report.timestamp (e_report x) <= Report.timestamp (e_report y))%Z) es /\
    snd (get_profit_history st)
    = {| resp_body := JsonHistory (e_report <$> es); resp_status := 200 |}.
Proof.
  intros evs st. split; [reflexivity|]. split; [reflexivity|].
  split; [reflexivity|].
  exact (@get_profit_history_ascending_timestamps Sample.builtins 18000 1000
           (Some []) evs eq_refl).
Defined.
